(** * The retrieval-augmented answer pipeline of Chatbot-RAG

  A shallow embedding of the helper functions [search_query_only] and
  [query_gemini] and of the [/chat] handler, as they are written in the
  two application variants of the repository:

  - [src/server.py], the variant with optional services and guarded
    calls (module [Server]);
  - [src/shri1.py], the earlier variant with unguarded calls
    (module [Shri1]).

  Python [str] values are embedded as [string].  The character-level
  operations ([lower], [strip], [split], [in], slicing) are exactly the
  ones of Python on ASCII text, where one character of the [string] is
  one character of the [str]; the theorems that depend on them are
  stated for ASCII text ([ascii_text]).  The bytes at and above 128 only
  occur here inside the UTF-8 encoded message constants, which the code
  passes on unchanged.  Scores are finite floats and every finite float is a rational,
  so a score is a [Q] and [score >= 0.75] is [Qle_bool (3 # 4) score]. *)

From Stdlib Require Import String Ascii List ZArith QArith Bool Lia.
From stdpp Require Import base option list strings gmap.

Local Open Scope string_scope.
Local Open Scope list_scope.

(** ** Python string operations *)

Module PyStr.

(** [str.isspace] on one ASCII character: TAB, LF, VT, FF, CR, the four
    separators 0x1c-0x1f and the blank. *)
Definition is_space (c : ascii) : bool :=
  let n := nat_of_ascii c in
  ((9 <=? n)%nat && (n <=? 13)%nat) || ((28 <=? n)%nat && (n <=? 32)%nat).

Definition lower_char (c : ascii) : ascii :=
  let n := nat_of_ascii c in
  if ((65 <=? n)%nat && (n <=? 90)%nat) then ascii_of_nat (n + 32) else c.

(** [s.lower()] on ASCII text: the letters [A-Z] become [a-z], every
    other character stays. *)
Fixpoint lower (s : string) : string :=
  match s with
  | EmptyString => EmptyString
  | String c s' => String (lower_char c) (lower s')
  end.

(** [s.replace(c, "")] for a one-character [c]: every occurrence of the
    character is dropped. *)
Fixpoint remove_char (c : ascii) (s : string) : string :=
  match s with
  | EmptyString => EmptyString
  | String d s' =>
      if Ascii.eqb d c then remove_char c s' else String d (remove_char c s')
  end.

Fixpoint lstrip (s : string) : string :=
  match s with
  | EmptyString => EmptyString
  | String c s' => if is_space c then lstrip s' else s
  end.

Fixpoint rstrip (s : string) : string :=
  match s with
  | EmptyString => EmptyString
  | String c s' =>
      match rstrip s' with
      | EmptyString => if is_space c then EmptyString else String c EmptyString
      | r => String c r
      end
  end.

(** [s.strip()] on ASCII text: the whitespace of [is_space] goes from
    both ends. *)
Definition strip (s : string) : string := rstrip (lstrip s).

(** The loop of [s.split()]: [cur] is the word being read. *)
Fixpoint split_from (cur : string) (s : string) : list string :=
  match s with
  | EmptyString =>
      match cur with EmptyString => [] | _ => [cur] end
  | String c s' =>
      if is_space c then
        match cur with
        | EmptyString => split_from EmptyString s'
        | _ => cur :: split_from EmptyString s'
        end
      else split_from (cur +:+ String c EmptyString) s'
  end.

(** [s.split()] on ASCII text: the maximal runs of non-whitespace
    characters. *)
Definition split (s : string) : list string := split_from EmptyString s.

Fixpoint starts_with (w s : string) : bool :=
  match w, s with
  | EmptyString, _ => true
  | String _ _, EmptyString => false
  | String a w', String b s' => Ascii.eqb a b && starts_with w' s'
  end.

(** [w in s] *)
Fixpoint contains (w s : string) : bool :=
  starts_with w s ||
  match s with
  | EmptyString => false
  | String _ s' => contains w s'
  end.

(** Truth value of a [str]: the empty string is false. *)
Definition truthy (s : string) : bool :=
  match s with EmptyString => false | _ => true end.

End PyStr.


(** ** Exceptions, the shared state and the calls to the outside *)

(** A Python exception (any subclass of [Exception]) with its message. *)
Inductive exn : Type :=
| PyError (what : string).

Inductive outcome (A : Type) : Type :=
| Ok (a : A)
| Raise (e : exn).
Arguments Ok {A} a.
Arguments Raise {A} e.

(** The module-level dict [last_disease_query = {"text": None, "name": None}].
    It always holds exactly these two keys. *)
Record last_query : Type := LastQuery {
  lq_text : option string;   (* last_disease_query["text"] *)
  lq_name : option string    (* last_disease_query["name"] *)
}.

(** What leaves the process: one entry per call to a collaborator. *)
Inductive event : Type :=
| EncodeCall (query : string)
| IndexQueryCall (vector : list Q) (top_k : nat) (include_metadata : bool)
| GeminiPost (url : string) (key : option string) (prompt : string)
| TranslateCall (answer dest : string)
| DbInsert (username message response : string)
| DbConnect
| DbCursor
| DbCommit
| DbRollback
| DbClose.

Record World : Type := MkWorld {
  last_disease_query : last_query;
  calls : list event           (* most recent call last *)
}.

(** Computations that read and write the world and may raise.  A raise
    keeps the writes made before it, as in Python. *)
Definition M (A : Type) : Type := World -> outcome A * World.

Definition ret {A} (a : A) : M A := fun w => (Ok a, w).

Definition raise {A} (e : exn) : M A := fun w => (Raise e, w).

Definition bind {A B} (m : M A) (k : A -> M B) : M B :=
  fun w =>
    match m w with
    | (Ok a, w') => k a w'
    | (Raise e, w') => (Raise e, w')
    end.

(** [try: m  except Exception as e: h e] *)
Definition try_except {A} (m : M A) (h : exn -> M A) : M A :=
  fun w =>
    match m w with
    | (Ok a, w') => (Ok a, w')
    | (Raise e, w') => h e w'
    end.

(** [try: m  finally: fin]: [fin] runs in every case, and an exception of
    it is the one that leaves. *)
Definition try_finally {A} (m : M A) (fin : M unit) : M A :=
  fun w =>
    match m w with
    | (r, w') =>
        match fin w' with
        | (Ok _, w'') => (r, w'')
        | (Raise e, w'') => (Raise e, w'')
        end
    end.

Declare Scope py_scope.
Delimit Scope py_scope with py.
Notation "'let!' x ':=' m 'in' k" := (bind m (fun x => k))
  (at level 10, x pattern, m at level 100, k at level 200) : py_scope.
Local Open Scope py_scope.

(** A call to a collaborator: it is recorded, then it answers or raises. *)
Definition call {A} (ev : event) (answer : outcome A) : M A :=
  fun w =>
    (answer, {| last_disease_query := last_disease_query w;
                calls := calls w ++ [ev] |}).

(** [last_disease_query["text"]] *)
Definition read_last_text : M (option string) :=
  fun w => (Ok (lq_text (last_disease_query w)), w).

(** [last_disease_query.update({"text": para, "name": query})] *)
Definition update_last_query (para query : string) : M unit :=
  fun w =>
    (Ok tt, {| last_disease_query := {| lq_text := Some para; lq_name := Some query |};
               calls := calls w |}).

(** ** The vector index's answer *)

(** One entry of [results["matches"]].  A key that [.get] looks up with a
    default may be missing. *)
Record metadata : Type := Metadata {
  md_text : option string     (* metadata["text"] *)
}.

Record Match : Type := MkMatch {
  m_score : option Q;             (* match["score"] *)
  m_metadata : option metadata    (* match["metadata"] *)
}.

Record QueryResponse : Type := MkQueryResponse {
  matches : option (list Match)   (* results["matches"] *)
}.

Definition encoder : Type := string -> outcome (list Q).
Definition vector_index : Type := list Q -> nat -> bool -> outcome QueryResponse.
Definition translation_backend : Type := string -> string -> outcome string.

(** What [requests.post] and the reads of its response give.  [body] is
    the result of [response.json()] followed by
    [data["candidates"][0]["content"]["parts"][0]["text"]]: the text, or
    the exception raised on a body that is not JSON or lacks that path. *)
Inductive post_result : Type :=
| PostRaises (e : exn)
| Response (status_code : Z) (body : outcome string).

Definition http_client : Type := string -> option string -> string -> post_result.

(** [response.raise_for_status()] *)
Definition raise_for_status (status_code : Z) : M unit :=
  if ((400 <=? status_code)%Z && (status_code <? 600)%Z)
  then raise (PyError "HTTPError")
  else ret tt.

Definition LF : string := String (ascii_of_nat 10) EmptyString.

(** The loop [for match in results["matches"]] of [search_query_only].
    [para_of] is the variant's way of reading the stripped passage text. *)
Fixpoint scan_matches (para_of : Match -> outcome string)
    (query : string) (threshold : Q) (disease_keywords : list string)
    (previous_text : option string) (ms : list Match) : M (option string) :=
  match ms with
  | [] => ret None
  | m :: rest =>
      let score := default 0%Q (m_score m) in
      match para_of m with
      | Raise e => raise e
      | Ok para =>
          if negb (PyStr.truthy para) || bool_decide (Some para = previous_text)
          then scan_matches para_of query threshold disease_keywords previous_text rest
          else if Qle_bool threshold score
                  && existsb (fun word => PyStr.contains word (PyStr.lower para))
                             disease_keywords
          then let! _ := update_last_query para query in ret (Some para)
          else scan_matches para_of query threshold disease_keywords previous_text rest
      end
  end.

(** [query.lower().replace("?", "").split()] *)
Definition keywords_of (query : string) : list string :=
  PyStr.split (PyStr.remove_char "?" (PyStr.lower query)).

(** The default of the parameter [threshold]. *)
Definition threshold_default : Q := 3 # 4.

(** The two prompt templates of [query_gemini]. *)
Definition prompt_of (paragraph : option string) (question : string) : string :=
  match paragraph with
  | Some p =>
      if PyStr.truthy p
      then p +:+ LF +:+ LF
             +:+ "Using the above text, answer this question within 200 words maximum:"
             +:+ LF +:+ LF +:+ question
      else "Answer this medical question in simple terms, within 200 words maximum:"
             +:+ LF +:+ LF +:+ question
  | None =>
      "Answer this medical question in simple terms, within 200 words maximum:"
        +:+ LF +:+ LF +:+ question
  end.

Definition gemini_url (MODEL_NAME : string) : string :=
  "https://generativelanguage.googleapis.com/v1beta/" +:+ MODEL_NAME +:+ ":generateContent".

(** The body of the [try] of [query_gemini]: post, check the status, read
    the text out of the body. *)
Definition gemini_request (post : http_client) (MODEL_NAME : string)
    (key : option string) (prompt : string) : M string :=
  let url := gemini_url MODEL_NAME in
  let! response :=
    call (GeminiPost url key prompt)
      (match post url key prompt with
       | PostRaises e => Raise e
       | Response status_code body => Ok (status_code, body)
       end) in
  let! _ := raise_for_status (fst response) in
  match snd response with
  | Ok t => ret t
  | Raise e => raise e
  end.

(** The body of a [/chat] request as the page's script sends it: the
    session cookie's contents and the posted JSON object, whose values
    for [query] and [language] are strings.  A body that is no JSON
    object, or that holds another kind of value there, is not a
    [Request]. *)
Record Request : Type := MkRequest {
  session : gmap string string;
  data : gmap string string
}.

(** [jsonify({"answer": answer})] *)
Definition jsonify_answer (answer : string) : gmap string string :=
  {[ "answer" := answer ]}.

(** The calls of the history insert to the database, and which of them
    raise. *)
Inductive db_step : Type :=
| AtConnect     (* get_db_connection() *)
| AtCursor      (* conn.cursor() *)
| AtInsert      (* cur.execute(INSERT ...) *)
| AtCommit      (* conn.commit() *)
| AtRollback    (* conn.rollback() *)
| AtClose.      (* conn.close() *)

Definition history_db : Type := db_step -> option exn.

Definition db_call (hist : history_db) (step : db_step) (ev : event) : M unit :=
  call ev (match hist step with Some e => Raise e | None => Ok tt end).

(** ** [src/server.py] *)

Module Server.

(** The module-level services.  [model], [index] and [translator] stay
    [None] when the import or the construction failed;
    [GEMINI_API_KEY] is [os.getenv("GEMINI_API_KEY", "")]. *)
Record Services : Type := MkServices {
  model : option encoder;
  index : option vector_index;
  translator : option translation_backend;
  GEMINI_API_KEY : string;
  MODEL_NAME : string;
  requests_post : http_client
}.

(** [match.get("metadata", {}).get("text", "").strip()] *)
Definition para_of (m : Match) : outcome string :=
  Ok (PyStr.strip
        (default EmptyString
           (md_text (default (Metadata None) (m_metadata m))))).

Definition search_query_only (sv : Services) (query : string) (threshold : Q)
  : M (option string) :=
  match model sv, index sv with
  | Some enc, Some idx =>
      try_except
        (let! query_vec := call (EncodeCall query) (enc query) in
         let! results :=
           call (IndexQueryCall query_vec 5 true) (idx query_vec 5%nat true) in
         match matches results with
         | None | Some [] => ret None
         | Some ms =>
             let disease_keywords := keywords_of query in
             let! previous_text := read_last_text in
             scan_matches para_of query threshold disease_keywords previous_text ms
         end)
        (fun e => ret None)
  | _, _ => ret None
  end.

(** The fallback answer of [query_gemini]. *)
Definition safe_answer (paragraph : option string) (question : string) : string :=
  let safe :=
    "I can provide general medical information based on common knowledge. "
    +:+ "If this is urgent or serious, please consult a medical professional immediately. "
    +:+ "You asked: " +:+ question in
  match paragraph with
  | Some p =>
      if PyStr.truthy p
      then safe +:+ LF +:+ LF +:+ "(Referenced content summary applied.)"
      else safe
  | None => safe
  end.

Definition query_gemini (sv : Services) (paragraph : option string)
    (question : string) : M string :=
  let prompt := prompt_of paragraph question in
  let! got :=
    (if PyStr.truthy (GEMINI_API_KEY sv)
     then try_except
            (let! t := gemini_request (requests_post sv) (MODEL_NAME sv)
                         (Some (GEMINI_API_KEY sv)) prompt in
             ret (Some t))
            (fun e => ret None)
     else ret None) in
  match got with
  | Some t => ret t
  | None => ret (safe_answer paragraph question)
  end.

(** The translation step of [chat]. *)
Definition translate_step (sv : Services) (answer target_lang : string) : M string :=
  match translator sv with
  | Some tr =>
      if PyStr.truthy target_lang && negb (String.eqb target_lang "en")
      then try_except
             (call (TranslateCall answer target_lang) (tr answer target_lang))
             (fun e => ret (answer +:+ " ⚠ Translation failed."))
      else ret answer
  | None => ret answer
  end.

(** The insert into [chat_history]:
    [conn = None; try: connect, cursor, insert, commit
     except Exception: if conn: conn.rollback()
     finally: if conn: conn.close()].
    When the connect raises, [conn] is still [None] and neither
    [rollback()] nor [close()] is called.  A [rollback()] or [close()]
    that raises leaves the handler. *)
Definition save_chat (hist : history_db) (username message response : string)
  : M unit :=
  fun w =>
    match db_call hist AtConnect DbConnect w with
    | (Raise _, w') => (Ok tt, w')
    | (Ok _, w') =>
        try_finally
          (try_except
             (let! _ := db_call hist AtCursor DbCursor in
              let! _ := db_call hist AtInsert (DbInsert username message response) in
              db_call hist AtCommit DbCommit)
             (fun _ => db_call hist AtRollback DbRollback))
          (db_call hist AtClose DbClose) w'
    end.

Definition chat (sv : Services) (hist : history_db) (req : Request)
  : M (gmap string string) :=
  match session req !! "username" with
  | None => ret (jsonify_answer "⚠ Please login first.")
  | Some username =>
      let query := PyStr.strip (default EmptyString (data req !! "query")) in
      let target_lang := default "en" (data req !! "language") in
      if negb (PyStr.truthy query)
      then ret (jsonify_answer "⚠ Please enter a valid question.")
      else
        let! para :=
          try_except (search_query_only sv query threshold_default)
                     (fun e => ret None) in
        let! answer :=
          match para with
          | Some p => if PyStr.truthy p then query_gemini sv (Some p) query
                      else query_gemini sv None query
          | None => query_gemini sv None query
          end in
        let! answer := translate_step sv answer target_lang in
        let! _ := save_chat hist username query answer in
        ret (jsonify_answer answer)
  end.

End Server.

(** ** [src/shri1.py] *)

Module Shri1.

(** The services are built when the module is loaded, so they are always
    there; [GEMINI_API_KEY] is [os.getenv("GEMINI_API_KEY")], which may
    be [None]. *)
Record Services : Type := MkServices {
  model : encoder;
  index : vector_index;
  translator : translation_backend;
  GEMINI_API_KEY : option string;
  requests_post : http_client
}.

Definition MODEL_NAME : string := "models/gemini-2.0-flash".

(** [match["metadata"].get("text", "").strip()] *)
Definition para_of (m : Match) : outcome string :=
  match m_metadata m with
  | None => Raise (PyError "KeyError: 'metadata'")
  | Some md => Ok (PyStr.strip (default EmptyString (md_text md)))
  end.

Definition search_query_only (sv : Services) (query : string) (threshold : Q)
  : M (option string) :=
  let! query_vec := call (EncodeCall query) (model sv query) in
  let! results :=
    call (IndexQueryCall query_vec 5 true) (index sv query_vec 5%nat true) in
  match matches results with
  | None | Some [] => ret None
  | Some ms =>
      let disease_keywords := keywords_of query in
      let! previous_text := read_last_text in
      scan_matches para_of query threshold disease_keywords previous_text ms
  end.

Definition query_gemini (sv : Services) (paragraph : option string)
    (question : string) : M string :=
  let prompt := prompt_of paragraph question in
  try_except
    (gemini_request (requests_post sv) MODEL_NAME (GEMINI_API_KEY sv) prompt)
    (fun e => ret "‚ö† Unable to get answer from Gemini.").

(** The translation step of [chat]. *)
Definition translate_step (sv : Services) (answer target_lang : string) : M string :=
  if negb (String.eqb target_lang "en")
  then try_except
         (call (TranslateCall answer target_lang) (translator sv answer target_lang))
         (fun e => ret (answer +:+ LF +:+ LF
                          +:+ "‚ö† Translation failed. Showing English answer."))
  else ret answer.

Definition chat (sv : Services) (req : Request) : M (gmap string string) :=
  try_except
    (let query := default EmptyString (data req !! "query") in
     let target_lang := default "en" (data req !! "language") in
     if negb (PyStr.truthy query)
     then ret (jsonify_answer "‚ùå Please enter a valid question.")
     else
       let! paragraph := search_query_only sv query threshold_default in
       let! answer := query_gemini sv paragraph query in
       let! answer := translate_step sv answer target_lang in
       ret (jsonify_answer answer))
    (fun e => ret (jsonify_answer "‚ö† An internal error occurred. Please try again.")).

End Shri1.

(** ** The two variants behind one interface *)

(** A running application is one of the two variants with its services. *)
Inductive App : Type :=
| ServerPy (sv : Server.Services)
| Shri1Py (sv : Shri1.Services).

Definition search_query_only (app : App) : string -> Q -> M (option string) :=
  match app with
  | ServerPy sv => Server.search_query_only sv
  | Shri1Py sv => Shri1.search_query_only sv
  end.

Definition query_gemini (app : App) : option string -> string -> M string :=
  match app with
  | ServerPy sv => Server.query_gemini sv
  | Shri1Py sv => Shri1.query_gemini sv
  end.

Definition translate_step (app : App) : string -> string -> M string :=
  match app with
  | ServerPy sv => Server.translate_step sv
  | Shri1Py sv => Shri1.translate_step sv
  end.

Definition chat (app : App) (hist : history_db) : Request -> M (gmap string string) :=
  match app with
  | ServerPy sv => Server.chat sv hist
  | Shri1Py sv => Shri1.chat sv
  end.

(** The question as the handler passes it on: [server.py] strips the
    posted text, [shri1.py] takes it as it is. *)
Definition question_of (app : App) (req : Request) : string :=
  match app with
  | ServerPy _ => PyStr.strip (default EmptyString (data req !! "query"))
  | Shri1Py _ => default EmptyString (data req !! "query")
  end.

(** [data.get("language", "en")] *)
Definition language_of (req : Request) : string :=
  default "en" (data req !! "language").

(** [server.py] answers only a session that holds a user name; [shri1.py]
    answers every request. *)
Definition admitted (app : App) (req : Request) : Prop :=
  match app with
  | ServerPy _ => is_Some (session req !! "username")
  | Shri1Py _ => True
  end.

(** The translation is attempted: the language asks for it and, in
    [server.py], a backend is there. *)
Definition translation_attempted (app : App) (target_lang : string) : Prop :=
  match app with
  | ServerPy sv =>
      is_Some (Server.translator sv) /\ target_lang <> EmptyString /\ target_lang <> "en"
  | Shri1Py _ => target_lang <> "en"
  end.

(** What the backend answers when it is asked. *)
Definition translation_result (app : App) (answer target_lang : string)
  : option (outcome string) :=
  match app with
  | ServerPy sv => (fun tr => tr answer target_lang) <$> Server.translator sv
  | Shri1Py sv => Some (Shri1.translator sv answer target_lang)
  end.

(** The suffix each variant appends when the translation fails. *)
Definition translation_warning (app : App) : string :=
  match app with
  | ServerPy _ => " ⚠ Translation failed."
  | Shri1Py _ => LF +:+ LF +:+ "‚ö† Translation failed. Showing English answer."
  end.

(** ** Words of the specification *)

(** [w] occurs in [s]. *)
Definition occurs_in (w s : string) : Prop :=
  exists pre post : string, s = pre +:+ w +:+ post.

(** The passage text of a match: its [text], stripped. *)
Definition passage_text (m : Match) : string :=
  PyStr.strip (default EmptyString (md_text (default (Metadata None) (m_metadata m)))).

(** The unstripped [text] of a match. *)
Definition raw_text (m : Match) : string :=
  default EmptyString (md_text (default (Metadata None) (m_metadata m))).

Definition score_of (m : Match) : Q := default 0%Q (m_score m).

(** Score and keyword test on a text, as the retriever's contract words
    them: the score reaches 0.75 and a keyword of the question occurs in
    the lowercased text. *)
Definition passes (query : string) (m : Match) (txt : string) : Prop :=
  (3 # 4 <= score_of m)%Q /\
  exists word, word ∈ keywords_of query /\ occurs_in word (PyStr.lower txt).

(** A match the retriever takes: its passage text is not the one
    remembered from the last retrieval and passes the two tests. *)
Definition qualifies (query : string) (previous_text : option string) (m : Match) : Prop :=
  Some (passage_text m) <> previous_text /\ passes query m (passage_text m).

(** The world after a retrieval that made its two calls and accepted
    [para] (or nothing). *)
Definition after_retrieval (w : World) (query : string) (query_vec : list Q)
    (accepted : option string) : World :=
  {| last_disease_query :=
       match accepted with
       | Some para => {| lq_text := Some para; lq_name := Some query |}
       | None => last_disease_query w
       end;
     calls := calls w ++ [EncodeCall query; IndexQueryCall query_vec 5 true] |}.

(** The encoder and the index answer the question with the matches [ms],
    each carrying its metadata. *)
Definition answers_with (app : App) (query : string) (query_vec : list Q)
    (ms : list Match) : Prop :=
  match app with
  | ServerPy sv =>
      exists enc idx,
        Server.model sv = Some enc /\ Server.index sv = Some idx /\
        enc query = Ok query_vec /\
        idx query_vec 5%nat true = Ok (MkQueryResponse (Some ms))
  | Shri1Py sv =>
      Shri1.model sv query = Ok query_vec /\
      Shri1.index sv query_vec 5%nat true = Ok (MkQueryResponse (Some ms)) /\
      Forall (fun m => is_Some (m_metadata m)) ms
  end.

(** The generation call fails: the post raises, the status is a client or
    server error, or the body does not yield the text. *)
Definition call_fails (r : post_result) : Prop :=
  match r with
  | PostRaises _ => True
  | Response status_code body =>
      (400 <= status_code < 600)%Z \/ exists e, body = Raise e
  end.

(** The trailing note of the fallback answer of [server.py]. *)
Definition reference_note : string :=
  LF +:+ LF +:+ "(Referenced content summary applied.)".

(** ** Sample services and requests *)

Module Sample.

Definition diabetes_text : string := "Diabetes mellitus causes thirst and fatigue.".

Definition m_diabetes : Match :=
  MkMatch (Some (9 # 10)) (Some (Metadata (Some diabetes_text))).

Definition m_padded : Match :=
  MkMatch (Some (9 # 10)) (Some (Metadata (Some "  diabetes care  "))).

Definition m_insulin : Match :=
  MkMatch (Some (8 # 10)) (Some (Metadata (Some "Insulin treats diabetes."))).

Definition question : string := "What are symptoms of diabetes?".

Definition generated : string := "Diabetes symptoms include thirst and fatigue.".

Definition query_vec : list Q := [1 # 2; 1 # 3].

Definition enc : encoder := fun _ => Ok query_vec.

Definition enc_down : encoder := fun _ => Raise (PyError "EncodingError").

Definition idx (ms : list Match) : vector_index :=
  fun _ _ _ => Ok (MkQueryResponse (Some ms)).

Definition idx_down : vector_index :=
  fun _ _ _ => Raise (PyError "ConnectionError").

Definition post_ok (t : string) : http_client := fun _ _ _ => Response 200 (Ok t).

Definition post_500 : http_client :=
  fun _ _ _ => Response 500 (Raise (PyError "JSONDecodeError")).

Definition post_timeout : http_client := fun _ _ _ => PostRaises (PyError "Timeout").

Definition tr_down : translation_backend := fun _ _ => Raise (PyError "ConnectError").

Definition server (ms : list Match) (post : http_client) : Server.Services :=
  {| Server.model := Some enc;
     Server.index := Some (idx ms);
     Server.translator := Some tr_down;
     Server.GEMINI_API_KEY := "key";
     Server.MODEL_NAME := "models/gemini-2.0-flash";
     Server.requests_post := post |}.

Definition shri1 (embed : encoder) (store : vector_index) (post : http_client)
  : Shri1.Services :=
  {| Shri1.model := embed;
     Shri1.index := store;
     Shri1.translator := tr_down;
     Shri1.GEMINI_API_KEY := Some "key";
     Shri1.requests_post := post |}.

(** A database that answers every call, one that cannot be reached and
    one whose [close()] raises. *)
Definition db_up : history_db := fun _ => None.

Definition db_down : history_db :=
  fun step => match step with AtConnect => Some (PyError "InterfaceError") | _ => None end.

Definition db_close_fails : history_db :=
  fun step => match step with AtClose => Some (PyError "OperationalError") | _ => None end.

Definition fresh : World :=
  {| last_disease_query := {| lq_text := None; lq_name := None |}; calls := [] |}.

(** The world after a retrieval that returned [diabetes_text]. *)
Definition after_diabetes : World :=
  {| last_disease_query :=
       {| lq_text := Some diabetes_text; lq_name := Some question |};
     calls := [] |}.

Definition request (q lang : string) : Request :=
  {| session := {[ "username" := "asha" ]};
     data := <[ "query" := q ]> {[ "language" := lang ]} |}.

End Sample.

(** ** [src/new.py]: cutting a page into passages *)

Module Ingest.

(** [sep.join(ws)] *)
Fixpoint join (sep : string) (ws : list string) : string :=
  match ws with
  | [] => EmptyString
  | w :: rest =>
      match rest with
      | [] => w
      | _ :: _ => w +:+ sep +:+ join sep rest
      end
  end.

(** A bound of a slice, as Python places it in a list of [len] items: a
    negative bound counts from the end, and both ends are clamped. *)
Definition slice_bound (len i : Z) : Z :=
  if (i <? 0)%Z then Z.max (i + len) 0 else Z.min i len.

(** [l[start:stop]] *)
Definition py_slice {A : Type} (l : list A) (start stop : Z) : list A :=
  let len := Z.of_nat (length l) in
  let lo := slice_bound len start in
  let hi := slice_bound len stop in
  take (Z.to_nat (hi - lo)) (drop (Z.to_nat lo) l).

(** The values [i, i + step, ...] below [stop], for a positive [step];
    [fuel] bounds their number. *)
Fixpoint range_from (fuel : nat) (i stop step : Z) : list Z :=
  match fuel with
  | O => []
  | S fuel' =>
      if (i <? stop)%Z then i :: range_from fuel' (i + step) stop step else []
  end.

(** [range(0, n, step)] for a length [n]: a zero step is refused, a
    negative one gives nothing. *)
Definition range_0 (n : nat) (step : Z) : outcome (list Z) :=
  if (step =? 0)%Z then Raise (PyError "ValueError: range() arg 3 must not be zero")
  else if (step <? 0)%Z then Ok []
  else Ok (range_from n 0 (Z.of_nat n) step).

Definition chunk_text (text : string) (chunk_size overlap : Z) : outcome (list string) :=
  let words := PyStr.split text in
  match range_0 (length words) (chunk_size - overlap) with
  | Raise e => Raise e
  | Ok starts =>
      Ok (map (fun i => join " " (py_slice words i (i + chunk_size))) starts)
  end.

(** The defaults of [chunk_size] and [overlap]. *)
Definition chunk_size_default : Z := 500.
Definition overlap_default : Z := 50.

End Ingest.

(** ** [draw_wrapped_text] of [download_history_pdf] in [src/server.py] *)

Module Pdf.


(** The loop of [text.split(sep)] for a one-character separator: [cur]
    is the piece being read; empty pieces are kept. *)
Fixpoint split_on (sep : ascii) (cur : string) (s : string) : list string :=
  match s with
  | EmptyString => [cur]
  | String c s' =>
      if Ascii.eqb c sep then cur :: split_on sep EmptyString s'
      else split_on sep (cur +:+ String c EmptyString) s'
  end.

(** [s[:n]] on ASCII text, where the [n] first characters are the [n]
    first bytes of the embedded string. *)
Fixpoint str_take (n : nat) (s : string) : string :=
  match n, s with
  | S n', String c s' => String c (str_take n' s')
  | _, _ => EmptyString
  end.

(** [s[n:]] on ASCII text. *)
Fixpoint str_drop (n : nat) (s : string) : string :=
  match n, s with
  | S n', String _ s' => str_drop n' s'
  | _, _ => s
  end.

(** The loop [while paragraph:] that cuts a paragraph into pieces of 95
    characters; [fuel] bounds the number of rounds. *)
Fixpoint cut_paragraph (fuel : nat) (paragraph : string) : list string :=
  match fuel with
  | O => []
  | S fuel' =>
      if PyStr.truthy paragraph
      then str_take 95 paragraph :: cut_paragraph fuel' (str_drop 95 paragraph)
      else []
  end.

(** The list [lines] built by the first loop. *)
Definition wrapped_lines (text : string) : list string :=
  concat (map (fun paragraph => cut_paragraph (String.length paragraph) paragraph)
              (split_on (ascii_of_nat 10) EmptyString text)).





End Pdf.

(** ** Further words for the properties of the code *)

(** The encoder and the index answer the question with the matches [ms]. *)
Definition index_gave (app : App) (query : string) (query_vec : list Q)
    (ms : list Match) : Prop :=
  match app with
  | ServerPy sv =>
      exists enc idx,
        Server.model sv = Some enc /\ Server.index sv = Some idx /\
        enc query = Ok query_vec /\
        idx query_vec 5%nat true = Ok (MkQueryResponse (Some ms))
  | Shri1Py sv =>
      Shri1.model sv query = Ok query_vec /\
      Shri1.index sv query_vec 5%nat true = Ok (MkQueryResponse (Some ms))
  end.

(** A word: not empty and free of whitespace. *)
Definition is_word (w : string) : Prop :=
  w <> EmptyString /\
  Forall (fun c => PyStr.is_space c = false) (list_ascii_of_string w).

(** The characters of a string, one after the other, as one string. *)
Definition concat_strings (ss : list string) : string :=
  fold_right String.append EmptyString ss.

(** ASCII text: every character is below 128.  On such text the string
    operations of [PyStr] are the ones of Python's [str], character by
    character. *)
Definition is_ascii (c : ascii) : bool := (nat_of_ascii c <? 128)%nat.

Fixpoint ascii_only (s : string) : bool :=
  match s with
  | EmptyString => true
  | String c s' => is_ascii c && ascii_only s'
  end.

Definition ascii_text (s : string) : Prop := ascii_only s = true.

(** The texts of the matches are ASCII. *)
Definition ascii_matches (ms : list Match) : Prop :=
  Forall (fun m => ascii_text (raw_text m)) ms.

(** What the encoder answers when the retriever asks it: [server.py] asks
    only with both services there. *)
Definition encoder_answer (app : App) (query : string) : option (outcome (list Q)) :=
  match app with
  | ServerPy sv =>
      match Server.model sv, Server.index sv with
      | Some enc, Some _ => Some (enc query)
      | _, _ => None
      end
  | Shri1Py sv => Some (Shri1.model sv query)
  end.

(** A call to the encoder, the index, the generation service or the
    translator. *)
Definition service_call (ev : event) : Prop :=
  match ev with
  | EncodeCall _ | IndexQueryCall _ _ _ | GeminiPost _ _ _ | TranslateCall _ _ => True
  | _ => False
  end.

(** ** The account and history routes of [src/server.py] *)

Module Accounts.

(** A row of [users] as the dictionary cursor gives it. *)
Record user_row : Type := UserRow {
  u_username : string;
  u_email : string;
  u_password : string    (* the stored hash *)
}.

(** A row of [chat_history]. *)
Record chat_row : Type := ChatRow {
  c_message : string;
  c_response : string;
  c_timestamp : string
}.

(** What the handlers ask of MySQL. *)
Inductive db_op : Type :=
| Connect                                           (* get_db_connection() *)
| SelectIdByNameOrEmail (username email : string)   (* register *)
| InsertUser (username email hashed : string)
| SelectUserByName (username : string)              (* login *)
| SelectNameEmail (username : string)               (* dashboard *)
| SelectPassword (username : string)                (* change_password *)
| UpdatePassword (hashed username : string)
| SelectHistory (username : string)                 (* history *)
| DeleteHistory (username : string)                 (* clear_history *)
| Commit
| Rollback
| Close.

(** The database and the password hashing of werkzeug, as the handlers
    see them: a call may raise; [fetchone()] after a select on [users]
    gives a row or [None]; [fetchall()] gives the rows of a user. *)
Record Backend : Type := MkBackend {
  db_fails : db_op -> option exn;
  db_user : db_op -> option user_row;
  db_history : string -> list chat_row;
  generate_password_hash : string -> string;
  check_password_hash : string -> string -> bool
}.

(** The session cookie, the flashed messages and the calls made to the
    database. *)
Record Site : Type := MkSite {
  site_session : gmap string string;
  flashed : list string;
  db_calls : list db_op
}.

Inductive response : Type :=
| Redirect (location : string)
| RenderLogin
| RenderRegister
| RenderDashboard (user : user_row)
| RenderHistory (rows : list chat_row)
| RenderChat.

Definition H (A : Type) : Type := Site -> outcome A * Site.

Definition hret {A} (a : A) : H A := fun s => (Ok a, s).

Definition hbind {A B} (m : H A) (k : A -> H B) : H B :=
  fun s =>
    match m s with
    | (Ok a, s') => k a s'
    | (Raise e, s') => (Raise e, s')
    end.

(** [try: m  except Exception as e: h e] *)
Definition h_try_except {A} (m : H A) (h : exn -> H A) : H A :=
  fun s =>
    match m s with
    | (Ok a, s') => (Ok a, s')
    | (Raise e, s') => h e s'
    end.

(** [try: m  finally: fin]: [fin] runs in every case, and an exception of
    it is the one that leaves. *)
Definition h_finally {A} (m : H A) (fin : H unit) : H A :=
  fun s =>
    match m s with
    | (r, s') =>
        match fin s' with
        | (Ok _, s'') => (r, s'')
        | (Raise e, s'') => (Raise e, s'')
        end
    end.

Notation "'do!' x ':=' m 'in' k" := (hbind m (fun x => k))
  (at level 10, x pattern, m at level 100, k at level 200).

(** One call to the database. *)
Definition db (be : Backend) (op : db_op) : H unit :=
  fun s =>
    (match db_fails be op with Some e => Raise e | None => Ok tt end,
     {| site_session := site_session s; flashed := flashed s;
        db_calls := db_calls s ++ [op] |}).

Definition flash (message : string) : H unit :=
  fun s =>
    (Ok tt, {| site_session := site_session s; flashed := flashed s ++ [message];
               db_calls := db_calls s |}).

(** [session["username"] = name] *)
Definition set_username (name : string) : H unit :=
  fun s =>
    (Ok tt, {| site_session := <[ "username" := name ]> (site_session s);
               flashed := flashed s; db_calls := db_calls s |}).

(** [session.pop("username", None)] *)
Definition pop_username : H unit :=
  fun s =>
    (Ok tt, {| site_session := delete "username" (site_session s);
               flashed := flashed s; db_calls := db_calls s |}).

(** The frame every handler puts around its database work:
    [conn = None; try: conn = get_db_connection(); body
     except Exception as e: on_error  finally: if conn: conn.close()].
    [on_error] is told whether [conn] was set. *)
Definition guarded {A} (be : Backend) (body : H A) (on_error : bool -> H A) : H A :=
  fun s =>
    match db be Connect s with
    | (Raise _, s') => on_error false s'
    | (Ok _, s') =>
        h_finally (h_try_except body (fun _ => on_error true)) (db be Close) s'
    end.

(** [if conn: conn.rollback()] *)
Definition rollback_if (be : Backend) (conn : bool) : H unit :=
  if conn then db be Rollback else hret tt.

Definition home : H response := hret (Redirect "/login").

Definition register (be : Backend) (post : bool) (form : gmap string string)
  : H response :=
  if post then
    let username := PyStr.strip (default EmptyString (form !! "username")) in
    let email := PyStr.strip (default EmptyString (form !! "email")) in
    let password := default EmptyString (form !! "password") in
    if negb (PyStr.truthy username) || negb (PyStr.truthy password)
       || negb (PyStr.truthy email)
    then do! _ := flash "Please fill all fields." in hret RenderRegister
    else
      let hashed := generate_password_hash be password in
      guarded be
        (do! _ := db be (SelectIdByNameOrEmail username email) in
         match db_user be (SelectIdByNameOrEmail username email) with
         | Some _ =>
             do! _ := flash "Username or Email already exists!" in hret RenderRegister
         | None =>
             do! _ := db be (InsertUser username email hashed) in
             do! _ := db be Commit in
             do! _ := flash "Registration successful! Please login." in
             hret (Redirect "/login")
         end)
        (fun conn =>
           do! _ := rollback_if be conn in
           do! _ := flash "Registration failed." in
           hret RenderRegister)
  else hret RenderRegister.

Definition login (be : Backend) (post : bool) (form : gmap string string)
  : H response :=
  if post then
    let username := PyStr.strip (default EmptyString (form !! "username")) in
    let password := default EmptyString (form !! "password") in
    if negb (PyStr.truthy username) || negb (PyStr.truthy password)
    then do! _ := flash "Enter username and password." in hret RenderLogin
    else
      guarded be
        (do! _ := db be (SelectUserByName username) in
         match db_user be (SelectUserByName username) with
         | Some user =>
             if check_password_hash be (u_password user) password
             then do! _ := set_username (u_username user) in
                  hret (Redirect "/dashboard")
             else do! _ := flash "Invalid username or password!" in hret RenderLogin
         | None =>
             do! _ := flash "Invalid username or password!" in hret RenderLogin
         end)
        (fun _ => do! _ := flash "Login failed." in hret RenderLogin)
  else hret RenderLogin.

Definition logout : H response :=
  do! _ := pop_username in hret (Redirect "/login").

(** [if "username" not in session: return redirect("/login")], then the
    handler with [session['username']]. *)
Definition logged_in (handler : string -> H response) : H response :=
  fun s =>
    match site_session s !! "username" with
    | None => (Ok (Redirect "/login"), s)
    | Some username => handler username s
    end.

Definition dashboard (be : Backend) : H response :=
  logged_in (fun username =>
    guarded be
      (do! _ := db be (SelectNameEmail username) in
       match db_user be (SelectNameEmail username) with
       | None => do! _ := flash "User not found." in hret (Redirect "/login")
       | Some user => hret (RenderDashboard user)
       end)
      (fun _ => do! _ := flash "Unable to load dashboard." in hret (Redirect "/login"))).

Definition change_password (be : Backend) (form : gmap string string) : H response :=
  logged_in (fun username =>
    let current := default EmptyString (form !! "current_password") in
    let new_pass := default EmptyString (form !! "new_password") in
    if negb (PyStr.truthy current) || negb (PyStr.truthy new_pass)
    then do! _ := flash "Please provide both current and new password." in
         hret (Redirect "/dashboard")
    else
      do! _ :=
        guarded be
          (do! _ := db be (SelectPassword username) in
           match db_user be (SelectPassword username) with
           | Some user =>
               if check_password_hash be (u_password user) current
               then
                 let hashed := generate_password_hash be new_pass in
                 do! _ := db be (UpdatePassword hashed username) in
                 do! _ := db be Commit in
                 flash "Password updated successfully!"
               else flash "Current password is incorrect!"
           | None => flash "Current password is incorrect!"
           end)
          (fun conn =>
             do! _ := rollback_if be conn in flash "Error updating password.") in
      hret (Redirect "/dashboard")).

Definition history (be : Backend) : H response :=
  logged_in (fun username =>
    guarded be
      (do! _ := db be (SelectHistory username) in
       hret (RenderHistory (db_history be username)))
      (fun _ => do! _ := flash "Unable to load history." in hret (Redirect "/dashboard"))).

Definition chatpage : H response :=
  logged_in (fun _ => hret RenderChat).

Definition clear_history (be : Backend) : H response :=
  logged_in (fun username =>
    do! _ :=
      guarded be
        (do! _ := db be (DeleteHistory username) in
         do! _ := db be Commit in
         flash "Chat history cleared.")
        (fun conn =>
           do! _ := rollback_if be conn in flash "Unable to clear history.") in
    hret (Redirect "/history")).

(** The routes that start with the login check. *)
Inductive protected_route : Type :=
| ToDashboard
| ToChangePassword (form : gmap string string)
| ToHistory
| ToChatPage
| ToClearHistory.

Definition serve (be : Backend) (route : protected_route) : H response :=
  match route with
  | ToDashboard => dashboard be
  | ToChangePassword form => change_password be form
  | ToHistory => history be
  | ToChatPage => chatpage
  | ToClearHistory => clear_history be
  end.

(** A backend that answers every call, knows one user and hashes by
    putting a tag in front. *)
Definition sample_backend : Backend :=
  {| db_fails := fun _ => None;
     db_user := fun op =>
       match op with
       | SelectUserByName "asha" | SelectPassword "asha" | SelectNameEmail "asha" =>
           Some (UserRow "asha" "asha@example.org" "hash:secret")
       | _ => None
       end;
     db_history := fun _ => [];
     generate_password_hash := fun p => "hash:" +:+ p;
     check_password_hash := fun h p => String.eqb h ("hash:" +:+ p) |}.

(** The same with a database that cannot be reached. *)
Definition sample_backend_down : Backend :=
  {| db_fails := fun op =>
       match op with Connect => Some (PyError "InterfaceError") | _ => None end;
     db_user := fun _ => None;
     db_history := fun _ => [];
     generate_password_hash := fun p => "hash:" +:+ p;
     check_password_hash := fun h p => String.eqb h ("hash:" +:+ p) |}.

Definition empty_site : Site :=
  {| site_session := ∅; flashed := []; db_calls := [] |}.

End Accounts.

(** ** Facts about the string operations *)

Section StringFacts.

Import PyStr.

Lemma starts_with_spec (w s : string) :
  starts_with w s = true <-> exists post, s = w +:+ post.
Proof.
  revert s; induction w as [|a w IH]; intros s; simpl.
  - split; [intros _; by exists s | done].
  - destruct s as [|b s]; simpl.
    + split; [done | intros [post H]; discriminate].
    + rewrite andb_true_iff, IH. split.
      * intros [Hab [post ->]]. apply Ascii.eqb_eq in Hab as ->. by exists post.
      * intros [post H]. injection H as -> ->. split; [apply Ascii.eqb_refl | by exists post].
Qed.

Lemma contains_spec (w s : string) : contains w s = true <-> occurs_in w s.
Proof.
  unfold occurs_in. induction s as [|c s IH].
  - simpl. rewrite orb_false_r, starts_with_spec. split.
    + intros [post H]. by exists EmptyString, post.
    + intros [pre [post H]]. destruct pre; [by exists post | discriminate].
  - cbn [contains]. rewrite orb_true_iff, IH, starts_with_spec. split.
    + intros [[post H] | [pre [post H]]].
      * by exists EmptyString, post.
      * exists (String c pre), post. simpl. by rewrite H.
    + intros [pre [post H]]. destruct pre as [|d pre]; simpl in H.
      * left. by exists post.
      * right. injection H as -> ->. by exists pre, post.
Qed.

Lemma contains_false (w s : string) : contains w s = false <-> ~ occurs_in w s.
Proof. rewrite <- contains_spec. destruct (contains w s); split; congruence. Qed.

Lemma append_nonempty (s : string) (c : ascii) : s +:+ String c EmptyString <> EmptyString.
Proof. destruct s; discriminate. Qed.

(** [split] never yields an empty word. *)
Lemma split_from_nonempty (s cur word : string) :
  word ∈ split_from cur s -> word <> EmptyString.
Proof.
  revert cur; induction s as [|c s IH]; intros cur; simpl.
  - destruct cur; [by intros ?%elem_of_nil | intros ->%list_elem_of_singleton; done].
  - destruct (is_space c).
    + destruct cur; [apply IH |].
      intros [-> | H]%elem_of_cons; [done | by eapply IH].
    + apply IH.
Qed.

Lemma split_nonempty (s word : string) : word ∈ split s -> word <> EmptyString.
Proof. apply split_from_nonempty. Qed.

Lemma lower_nonempty (s : string) : lower s = EmptyString -> s = EmptyString.
Proof. by destruct s. Qed.

(** A text in which a non-empty word occurs is not empty. *)
Lemma occurs_in_truthy (w s : string) :
  w <> EmptyString -> occurs_in w (lower s) -> truthy s = true.
Proof.
  intros Hw [pre [post H]]. destruct s; [| done].
  simpl in H. destruct pre; [destruct w; [done | discriminate] | discriminate].
Qed.

Lemma is_space_lower (c : ascii) : is_space c = true -> lower_char c = c.
Proof.
  destruct c as [[] [] [] [] [] [] [] []]; vm_compute; congruence.
Qed.

Lemma is_space_not_qmark (c : ascii) : is_space c = true -> Ascii.eqb c "?" = false.
Proof.
  destruct c as [[] [] [] [] [] [] [] []]; vm_compute; congruence.
Qed.

(** A question made of question marks and whitespace has no keyword. *)
Lemma keywords_of_blank (query : string) :
  Forall (fun c => c = "?"%char \/ is_space c = true) (list_ascii_of_string query) ->
  keywords_of query = [].
Proof.
  unfold keywords_of, split. induction query as [|c q IH]; simpl; [done |].
  intros H. inversion H as [|? ? [-> | Hc] Hq]; subst.
  - simpl. by apply IH.
  - rewrite (is_space_lower _ Hc), (is_space_not_qmark _ Hc). simpl.
    rewrite Hc. by apply IH.
Qed.

Lemma lower_char_qmark (c : ascii) : Ascii.eqb (lower_char c) "?" = true -> c = "?"%char.
Proof.
  destruct c as [[] [] [] [] [] [] [] []]; vm_compute; congruence.
Qed.

Lemma lower_char_space (c : ascii) : is_space (lower_char c) = true -> is_space c = true.
Proof.
  destruct c as [[] [] [] [] [] [] [] []]; vm_compute; congruence.
Qed.

(** A word being read is never lost. *)
Lemma split_from_pending (s cur : string) : cur <> EmptyString -> split_from cur s <> [].
Proof.
  revert cur; induction s as [|c s IH]; intros cur Hcur; simpl.
  - by destruct cur.
  - destruct (is_space c).
    + by destruct cur.
    + apply IH, append_nonempty.
Qed.

(** Conversely, a question without keywords is made of question marks
    and whitespace. *)
Lemma keywords_of_nil_blank (query : string) :
  keywords_of query = [] ->
  Forall (fun c => c = "?"%char \/ is_space c = true) (list_ascii_of_string query).
Proof.
  unfold keywords_of, split. induction query as [|c q IH]; simpl; [constructor |].
  destruct (Ascii.eqb (lower_char c) "?") eqn:Hq.
  - intros H. constructor; [left; by apply lower_char_qmark | by apply IH].
  - simpl. destruct (is_space (lower_char c)) eqn:Hs.
    + intros H. constructor; [right; by apply lower_char_space | by apply IH].
    + intros H. by apply split_from_pending in H.
Qed.

Example keywords_of_question :
  keywords_of "What are  symptoms of Diabetes?"
  = ["what"; "are"; "symptoms"; "of"; "diabetes"].
Proof. reflexivity. Qed.

Example strip_blanks_around : strip "  a b  " = "a b" /\ strip "   " = EmptyString.
Proof. split; reflexivity. Qed.

Example contains_examples :
  contains "bet" "diabetes" = true /\ contains "bat" "diabetes" = false /\
  contains EmptyString "diabetes" = true.
Proof. repeat split. Qed.

End StringFacts.

(** ** The loop over the matches *)

Section Loop.

Import PyStr.

Variable para_of : Match -> outcome string.
Variable query : string.
Variable previous_text : option string.

(** The two tests of one iteration, on the passage text, say [qualifies]. *)
Lemma accept_test_iff (m : Match) :
  let para := passage_text m in
  negb (negb (truthy para) || bool_decide (Some para = previous_text))
  && (Qle_bool (3 # 4) (score_of m)
      && existsb (fun word => contains word (lower para)) (keywords_of query)) = true
  <-> qualifies query previous_text m.
Proof.
  cbv zeta. unfold qualifies, passes.
  rewrite !andb_true_iff, negb_true_iff, orb_false_iff, negb_false_iff,
    bool_decide_eq_false, Qle_bool_iff, existsb_exists.
  split.
  - intros [[_ Hne] [Hs [word [Hin Hc]]]]. split; [done |]. split; [done |].
    exists word. by rewrite list_elem_of_In, <- contains_spec.
  - intros [Hne [Hs [word [Hin Hc]]]]. split; [split; [| done] | split; [done |]].
    + eapply occurs_in_truthy; [| exact Hc]. by eapply split_nonempty.
    + exists word. by rewrite <- list_elem_of_In, contains_spec.
Qed.

(** One iteration on a match whose passage text can be read. *)
Lemma scan_matches_cons (m : Match) (rest : list Match) (w : World) :
  para_of m = Ok (passage_text m) ->
  scan_matches para_of query (3 # 4) (keywords_of query) previous_text (m :: rest) w
  = if negb (negb (truthy (passage_text m))
             || bool_decide (Some (passage_text m) = previous_text))
       && (Qle_bool (3 # 4) (score_of m)
           && existsb (fun word => contains word (lower (passage_text m)))
                (keywords_of query))
    then (Ok (Some (passage_text m)),
          {| last_disease_query :=
               {| lq_text := Some (passage_text m); lq_name := Some query |};
             calls := calls w |})
    else scan_matches para_of query (3 # 4) (keywords_of query) previous_text rest w.
Proof.
  intros Hp. cbn [scan_matches]. rewrite Hp. fold (score_of m).
  destruct (negb (truthy (passage_text m)) || _); [done |].
  cbn [negb andb]. by destruct (Qle_bool _ _ && _).
Qed.

(** The first match that qualifies is taken and remembered. *)
Lemma scan_matches_accepts (ms : list Match) (i : nat) (m : Match) (w : World) :
  Forall (fun m => para_of m = Ok (passage_text m)) ms ->
  ms !! i = Some m ->
  qualifies query previous_text m ->
  (forall j m', (j < i)%nat -> ms !! j = Some m' -> ~ qualifies query previous_text m') ->
  scan_matches para_of query (3 # 4) (keywords_of query) previous_text ms w
  = (Ok (Some (passage_text m)),
     {| last_disease_query :=
          {| lq_text := Some (passage_text m); lq_name := Some query |};
        calls := calls w |}).
Proof.
  revert i; induction ms as [|m0 ms IH]; intros i Hwf Hi Hq Hbefore; [done |].
  inversion Hwf as [|? ? Hp0 Hwf']; subst.
  rewrite scan_matches_cons by done.
  destruct i as [|i]; simpl in Hi.
  - injection Hi as ->. apply accept_test_iff in Hq. cbv zeta in Hq. by rewrite Hq.
  - assert (Hn : ~ qualifies query previous_text m0) by (apply (Hbefore 0%nat); [lia | done]).
    rewrite <- accept_test_iff in Hn. cbv zeta in Hn.
    apply not_true_is_false in Hn. rewrite Hn.
    apply (IH i); [done | done | done |].
    intros j m' Hj Hm'. apply (Hbefore (S j)); [lia | done].
Qed.

(** With no qualifying match the loop ends with [None] and writes nothing. *)
Lemma scan_matches_rejects (ms : list Match) (w : World) :
  Forall (fun m => para_of m = Ok (passage_text m)) ms ->
  (forall m, m ∈ ms -> ~ qualifies query previous_text m) ->
  scan_matches para_of query (3 # 4) (keywords_of query) previous_text ms w = (Ok None, w).
Proof.
  induction ms as [|m0 ms IH]; intros Hwf Hno; [done |].
  inversion Hwf as [|? ? Hp0 Hwf']; subst.
  rewrite scan_matches_cons by done.
  assert (Hn : ~ qualifies query previous_text m0) by (apply Hno; left).
  rewrite <- accept_test_iff in Hn. cbv zeta in Hn.
  apply not_true_is_false in Hn. rewrite Hn.
  apply IH; [done |]. intros m Hm. apply Hno. by right.
Qed.

(** Whatever the matches, the threshold and the keywords: the loop
    returns a text other than the remembered one and remembers it, or it
    leaves the world as it found it. *)
Lemma scan_matches_frame (threshold : Q) (kws : list string) (ms : list Match)
    (w w' : World) (r : outcome (option string)) :
  scan_matches para_of query threshold kws previous_text ms w = (r, w') ->
  match r with
  | Ok (Some para) =>
      Some para <> previous_text /\ truthy para = true /\
      w' = {| last_disease_query := {| lq_text := Some para; lq_name := Some query |};
              calls := calls w |}
  | _ => w' = w
  end.
Proof.
  induction ms as [|m ms IH]; cbn [scan_matches].
  - unfold ret. by intros [= <- <-].
  - destruct (para_of m) as [para | e].
    + destruct (truthy para) eqn:Ht; cbn [negb orb]; [| exact IH].
      destruct (bool_decide (Some para = previous_text)) eqn:Hd; [exact IH |].
      destruct (Qle_bool _ _ && _); [| exact IH].
      unfold bind, update_last_query, ret. intros [= <- <-].
      apply bool_decide_eq_false in Hd. done.
    + unfold raise. by intros [= <- <-].
Qed.

(** Without keywords nothing is accepted. *)
Lemma scan_matches_no_keywords (threshold : Q) (ms : list Match) (w : World) :
  (forall m, m ∈ ms -> exists para, para_of m = Ok para) ->
  scan_matches para_of query threshold [] previous_text ms w = (Ok None, w).
Proof.
  induction ms as [|m ms IH]; intros Hwf; [done |].
  cbn [scan_matches]. destruct (Hwf m) as [para ->]; [left |].
  cbn [existsb]. rewrite andb_false_r.
  assert (IH' := IH (fun m' Hm' => Hwf m' (list_elem_of_further _ _ _ Hm'))).
  by destruct (negb (truthy para) || _).
Qed.

(** Without keywords the loop never returns a text. *)
Lemma scan_matches_no_keywords_any (threshold : Q) (ms : list Match) (w : World) :
  fst (scan_matches para_of query threshold [] previous_text ms w) = Ok None \/
  exists e, fst (scan_matches para_of query threshold [] previous_text ms w) = Raise e.
Proof.
  induction ms as [|m ms IH]; [by left |].
  cbn [scan_matches]. destruct (para_of m) as [para | e]; [| right; by exists e].
  cbn [existsb]. rewrite andb_false_r.
  by destruct (negb (truthy para) || _).
Qed.

End Loop.

(** ** The passage retriever *)

Section Retriever.

Import PyStr.

Lemma Server_para_of_total (ms : list Match) :
  Forall (fun m => Server.para_of m = Ok (passage_text m)) ms.
Proof. by apply Forall_forall. Qed.

Lemma Shri1_para_of_metadata (ms : list Match) :
  Forall (fun m => is_Some (m_metadata m)) ms ->
  Forall (fun m => Shri1.para_of m = Ok (passage_text m)) ms.
Proof.
  intros H. eapply Forall_impl; [exact H |]. intros m [md Hmd].
  unfold Shri1.para_of, passage_text. by rewrite Hmd.
Qed.

(** [server.py]: with both services answering, the retriever is its loop
    run after the two calls, a raise of the loop turned into [None]. *)
Lemma Server_search_run (sv : Server.Services) (query : string) (threshold : Q)
    (w : World) (enc : encoder) (idx : vector_index) (query_vec : list Q)
    (ms : list Match) :
  Server.model sv = Some enc -> Server.index sv = Some idx ->
  enc query = Ok query_vec ->
  idx query_vec 5%nat true = Ok (MkQueryResponse (Some ms)) ->
  Server.search_query_only sv query threshold w
  = match scan_matches Server.para_of query threshold (keywords_of query)
            (lq_text (last_disease_query w)) ms (after_retrieval w query query_vec None) with
    | (Ok r, w') => (Ok r, w')
    | (Raise e, w') => (Ok None, w')
    end.
Proof.
  intros Hm Hi He Hq. unfold Server.search_query_only.
  rewrite Hm, Hi. unfold try_except, bind, call. rewrite He. cbn [last_disease_query calls].
  rewrite Hq. cbn [matches last_disease_query calls]. rewrite <- app_assoc.
  destruct ms as [|m ms]; [done |].
  unfold read_last_text. cbn [last_disease_query]. done.
Qed.

(** [shri1.py]: the same without the guard. *)
Lemma Shri1_search_run (sv : Shri1.Services) (query : string) (threshold : Q)
    (w : World) (query_vec : list Q) (ms : list Match) :
  Shri1.model sv query = Ok query_vec ->
  Shri1.index sv query_vec 5%nat true = Ok (MkQueryResponse (Some ms)) ->
  Shri1.search_query_only sv query threshold w
  = scan_matches Shri1.para_of query threshold (keywords_of query)
      (lq_text (last_disease_query w)) ms (after_retrieval w query query_vec None).
Proof.
  intros He Hq. unfold Shri1.search_query_only, bind, call. rewrite He.
  cbn [last_disease_query calls]. rewrite Hq.
  cbn [matches last_disease_query calls]. rewrite <- app_assoc.
  destruct ms as [|m ms]; [done |].
  unfold read_last_text. cbn [last_disease_query]. done.
Qed.

(** A call of the retriever returns a text other than the remembered one
    and remembers it with the question, or it leaves
    [last_disease_query] alone. *)
Lemma search_query_only_frame (app : App) (query : string) (threshold : Q)
    (w w' : World) (r : outcome (option string)) :
  search_query_only app query threshold w = (r, w') ->
  match r with
  | Ok (Some para) =>
      Some para <> lq_text (last_disease_query w) /\ truthy para = true /\
      last_disease_query w' = {| lq_text := Some para; lq_name := Some query |}
  | _ => last_disease_query w' = last_disease_query w
  end.
Proof.
  destruct app as [sv | sv]; cbn [search_query_only].
  - unfold Server.search_query_only.
    destruct (Server.model sv) as [enc |]; [| unfold ret; by intros [= <- <-]].
    destruct (Server.index sv) as [idx |]; [| unfold ret; by intros [= <- <-]].
    unfold try_except, bind, call.
    destruct (enc query) as [v | e]; [| unfold ret; by intros [= <- <-]].
    destruct (idx v 5%nat true) as [[[ms |]] | e];
      [| unfold ret; by intros [= <- <-] .. ].
    cbn [matches]. destruct ms as [|m ms]; [unfold ret; by intros [= <- <-] |].
    unfold read_last_text. cbn [last_disease_query calls].
    destruct (scan_matches _ _ _ _ _ _ _) as [r0 w0] eqn:Hscan.
    apply scan_matches_frame in Hscan.
    destruct r0 as [[para |] | e]; intros [= <- <-].
    + destruct Hscan as (? & ? & ->). done.
    + by subst w0.
    + unfold ret. by subst w0.
  - unfold Shri1.search_query_only, bind, call.
    destruct (Shri1.model sv query) as [v | e]; [| by intros [= <- <-]].
    cbn [last_disease_query calls].
    destruct (Shri1.index sv v 5%nat true) as [[[ms |]] | e];
      [| unfold ret; by intros [= <- <-] .. ].
    cbn [matches]. destruct ms as [|m ms]; [unfold ret; by intros [= <- <-] |].
    unfold read_last_text. cbn [last_disease_query calls].
    intros Hscan. apply scan_matches_frame in Hscan.
    destruct r as [[para |] | e].
    + destruct Hscan as (? & ? & ->). done.
    + by subst w'.
    + by subst w'.
Qed.

(** [server.py]: the retriever never raises. *)
Lemma Server_search_query_only_returns (sv : Server.Services) (query : string)
    (threshold : Q) (w : World) :
  exists r, fst (Server.search_query_only sv query threshold w) = Ok r.
Proof.
  unfold Server.search_query_only.
  destruct (Server.model sv) as [enc |]; [| by exists None].
  destruct (Server.index sv) as [idx |]; [| by exists None].
  unfold try_except. destruct (bind _ _ w) as [[r | e] w']; [by exists r | by exists None].
Qed.

(** [server.py]: a missing or failing encoder, a missing or failing index
    and an answer without matches all give [None]. *)
Lemma Server_search_query_only_unavailable (sv : Server.Services) (query : string)
    (threshold : Q) (w : World) :
  (Server.model sv = None \/ Server.index sv = None \/
   (exists enc e, Server.model sv = Some enc /\ enc query = Raise e) \/
   (exists enc idx v, Server.model sv = Some enc /\ Server.index sv = Some idx /\
      enc query = Ok v /\
      (idx v 5%nat true = Ok (MkQueryResponse None) \/
       idx v 5%nat true = Ok (MkQueryResponse (Some [])) \/
       exists e, idx v 5%nat true = Raise e))) ->
  fst (Server.search_query_only sv query threshold w) = Ok None /\
  last_disease_query (snd (Server.search_query_only sv query threshold w))
  = last_disease_query w.
Proof.
  unfold Server.search_query_only.
  intros [Hm | [Hi | [(enc & e0 & Hm & He) | (enc & idx & v & Hm & Hi & He & Hq)]]].
  - by rewrite Hm.
  - rewrite Hi. by destruct (Server.model sv).
  - rewrite Hm. destruct (Server.index sv); [| done].
    unfold try_except, bind, call. by rewrite He.
  - rewrite Hm, Hi. unfold try_except, bind, call. rewrite He.
    destruct Hq as [Hq | [Hq | [e Hq]]]; by rewrite Hq.
Qed.

End Retriever.

(** ** What the retriever returns *)

(** C1, as the claim words it, fails twice on [server.py].  The only
    candidate reaches the score and holds a keyword of the question, but
    its text is the one remembered from the last retrieval: the retriever
    returns null.  And a candidate whose text has blanks around it is
    returned without them, so not as the index gave it. *)
Lemma retriever_first_match_cex :
  (passes Sample.question Sample.m_diabetes (raw_text Sample.m_diabetes) /\
   fst (search_query_only
          (ServerPy (Sample.server [Sample.m_diabetes] Sample.post_500))
          Sample.question threshold_default Sample.after_diabetes) = Ok None) /\
  (passes Sample.question Sample.m_padded (raw_text Sample.m_padded) /\
   fst (search_query_only
          (ServerPy (Sample.server [Sample.m_padded] Sample.post_500))
          Sample.question threshold_default Sample.fresh) = Ok (Some "diabetes care") /\
   raw_text Sample.m_padded <> "diabetes care").
Proof.
  split; [split | split; [| split]].
  - split; [by vm_compute |]. exists "diabetes". split.
    + vm_compute. repeat constructor.
    + apply contains_spec. by vm_compute.
  - by vm_compute.
  - split; [by vm_compute |]. exists "diabetes". split.
    + vm_compute. repeat constructor.
    + apply contains_spec. by vm_compute.
  - by vm_compute.
  - by vm_compute.
Qed.

(** With both services answering, the retriever returns the passage
    text of the first match that qualifies and remembers it with the
    question; it returns null when none qualifies. *)
Lemma search_query_only_first (app : App) (query : string)
    (query_vec : list Q) (ms : list Match) (w : World) :
  answers_with app query query_vec ms ->
  (forall i m,
     ms !! i = Some m ->
     qualifies query (lq_text (last_disease_query w)) m ->
     (forall j m', (j < i)%nat -> ms !! j = Some m' ->
                   ~ qualifies query (lq_text (last_disease_query w)) m') ->
     search_query_only app query threshold_default w
     = (Ok (Some (passage_text m)),
        after_retrieval w query query_vec (Some (passage_text m)))) /\
  ((forall m, m ∈ ms -> ~ qualifies query (lq_text (last_disease_query w)) m) ->
   search_query_only app query threshold_default w
   = (Ok None, after_retrieval w query query_vec None)).
Proof.
  intros Hans. destruct app as [sv | sv]; cbn [search_query_only answers_with] in *.
  - destruct Hans as (enc & idx & Hm & Hi & He & Hq).
    rewrite (Server_search_run _ _ _ _ _ _ _ _ Hm Hi He Hq). unfold threshold_default.
    split.
    + intros i m Hi' Hqual Hbefore.
      by rewrite (scan_matches_accepts _ _ _ _ i m _ (Server_para_of_total ms) Hi' Hqual Hbefore).
    + intros Hno. by rewrite (scan_matches_rejects _ _ _ _ _ (Server_para_of_total ms) Hno).
  - destruct Hans as (He & Hq & Hmd).
    rewrite (Shri1_search_run _ _ _ _ _ _ He Hq). unfold threshold_default.
    apply Shri1_para_of_metadata in Hmd. split.
    + intros i m Hi' Hqual Hbefore.
      by rewrite (scan_matches_accepts _ _ _ _ i m _ Hmd Hi' Hqual Hbefore).
    + intros Hno. by rewrite (scan_matches_rejects _ _ _ _ _ Hmd Hno).
Qed.

(** C1 (amended).  For a question and match texts in ASCII (where the
    embedded [lower], [strip] and [split] are Python's): when the encoder
    and the index answer, the retriever scans the matches in the returned
    order and returns the stripped text of the first candidate whose
    stripped text differs from the remembered [lastText], whose score is
    at least 0.75 and in whose lowercased stripped text a keyword of the
    question occurs; it then remembers that text and the question.  With
    no such candidate it returns null. *)
Theorem retriever_returns_first_qualifying (app : App) (query : string)
    (query_vec : list Q) (ms : list Match) (w : World) :
  answers_with app query query_vec ms ->
  ascii_text query ->
  ascii_matches ms ->
  (forall i m,
     ms !! i = Some m ->
     qualifies query (lq_text (last_disease_query w)) m ->
     (forall j m', (j < i)%nat -> ms !! j = Some m' ->
                   ~ qualifies query (lq_text (last_disease_query w)) m') ->
     search_query_only app query threshold_default w
     = (Ok (Some (passage_text m)),
        after_retrieval w query query_vec (Some (passage_text m)))) /\
  ((forall m, m ∈ ms -> ~ qualifies query (lq_text (last_disease_query w)) m) ->
   search_query_only app query threshold_default w
   = (Ok None, after_retrieval w query query_vec None)).
Proof. intros Hans _ _. by apply search_query_only_first. Qed.

(** The sample index returns the remembered passage first and a second
    one that qualifies: the second is returned. *)
Lemma retriever_returns_first_qualifying_witness :
  answers_with
    (ServerPy (Sample.server [Sample.m_diabetes; Sample.m_insulin] Sample.post_500))
    Sample.question Sample.query_vec [Sample.m_diabetes; Sample.m_insulin] /\
  ascii_text Sample.question /\
  ascii_matches [Sample.m_diabetes; Sample.m_insulin] /\
  search_query_only
    (ServerPy (Sample.server [Sample.m_diabetes; Sample.m_insulin] Sample.post_500))
    Sample.question threshold_default Sample.after_diabetes
  = (Ok (Some "Insulin treats diabetes."),
     after_retrieval Sample.after_diabetes Sample.question Sample.query_vec
       (Some "Insulin treats diabetes.")).
Proof.
  assert (Hans : answers_with
    (ServerPy (Sample.server [Sample.m_diabetes; Sample.m_insulin] Sample.post_500))
    Sample.question Sample.query_vec [Sample.m_diabetes; Sample.m_insulin]).
  { exists Sample.enc, (Sample.idx [Sample.m_diabetes; Sample.m_insulin]).
    repeat split. }
  assert (Hq : ascii_text Sample.question) by reflexivity.
  assert (Hms : ascii_matches [Sample.m_diabetes; Sample.m_insulin])
    by (repeat constructor).
  split; [exact Hans |]. split; [exact Hq |]. split; [exact Hms |].
  apply (proj1 (retriever_returns_first_qualifying _ _ _ _ Sample.after_diabetes
                  Hans Hq Hms)
           1%nat Sample.m_insulin).
  - reflexivity.
  - split; [discriminate |]. split; [by vm_compute |].
    exists "diabetes". split.
    + vm_compute. repeat constructor.
    + apply contains_spec. by vm_compute.
  - intros j m' Hj Hm'. destruct j as [|j]; [| lia].
    injection Hm' as <-. intros [Hne _]. by apply Hne.
Defined.

(** C2.  A retrieval never returns the text remembered when it starts,
    and it remembers what it returns.  So in the retrieval that follows
    a returned passage [p1], on whatever question and index answer, [p1]
    is never returned; and (question and match texts in ASCII) every
    candidate whose stripped text is [p1] is skipped even as the top
    match, the scan going on to the first later candidate that passes
    the score and keyword tests, which is returned, or to null when
    there is none. *)
Theorem retriever_never_repeats (app1 app2 : App) (q1 q2 : string) (th1 : Q)
    (w0 w1 w1' : World) (p1 : string) :
  search_query_only app1 q1 th1 w0 = (Ok (Some p1), w1) ->
  last_disease_query w1' = last_disease_query w1 ->
  Some p1 <> lq_text (last_disease_query w0) /\
  lq_text (last_disease_query w1) = Some p1 /\
  (forall th2, fst (search_query_only app2 q2 th2 w1') <> Ok (Some p1)) /\
  (forall query_vec ms,
     answers_with app2 q2 query_vec ms ->
     ascii_text q2 ->
     ascii_matches ms ->
     (forall i m,
        ms !! i = Some m ->
        passage_text m <> p1 ->
        passes q2 m (passage_text m) ->
        (forall j m', (j < i)%nat -> ms !! j = Some m' ->
                      passage_text m' = p1 \/ ~ passes q2 m' (passage_text m')) ->
        search_query_only app2 q2 threshold_default w1'
        = (Ok (Some (passage_text m)),
           after_retrieval w1' q2 query_vec (Some (passage_text m)))) /\
     ((forall m, m ∈ ms -> passage_text m = p1 \/ ~ passes q2 m (passage_text m)) ->
      search_query_only app2 q2 threshold_default w1'
      = (Ok None, after_retrieval w1' q2 query_vec None))).
Proof.
  intros H1 Hsame.
  apply search_query_only_frame in H1 as (Hne1 & _ & Hw1).
  assert (Hprev : lq_text (last_disease_query w1') = Some p1)
    by (by rewrite Hsame, Hw1).
  split; [done |]. split; [by rewrite Hw1 |]. split.
  - intros th2 Hret.
    destruct (search_query_only app2 q2 th2 w1') as [r w2] eqn:H2. cbn [fst] in Hret.
    subst r. apply search_query_only_frame in H2 as (Hne2 & _ & _).
    by rewrite Hprev in Hne2.
  - intros query_vec ms Hans _ _.
    destruct (search_query_only_first app2 q2 query_vec ms w1' Hans) as [Hfirst Hnone].
    rewrite Hprev in Hfirst, Hnone. split.
    + intros i m Hi Hm Hpass Hbefore. apply (Hfirst i m Hi).
      * split; [congruence | done].
      * intros j m' Hj Hm' [Hne Hp].
        destruct (Hbefore j m' Hj Hm') as [Heq | Hno]; [congruence | done].
    + intros Hall. apply Hnone. intros m Hm [Hne Hp].
      destruct (Hall m Hm) as [Heq | Hno]; [congruence | done].
Qed.

(** The same question twice against the same index, in both variants:
    first the top match, then, the top match being skipped, the next
    one. *)
Lemma retriever_never_repeats_witness :
  (search_query_only
     (ServerPy (Sample.server [Sample.m_diabetes; Sample.m_insulin] Sample.post_500))
     Sample.question threshold_default Sample.fresh
   = (Ok (Some Sample.diabetes_text),
      after_retrieval Sample.fresh Sample.question Sample.query_vec
        (Some Sample.diabetes_text)) /\
   search_query_only
     (ServerPy (Sample.server [Sample.m_diabetes; Sample.m_insulin] Sample.post_500))
     Sample.question threshold_default Sample.after_diabetes
   = (Ok (Some "Insulin treats diabetes."),
      after_retrieval Sample.after_diabetes Sample.question Sample.query_vec
        (Some "Insulin treats diabetes."))) /\
  (search_query_only
     (Shri1Py (Sample.shri1 Sample.enc
                 (Sample.idx [Sample.m_diabetes; Sample.m_insulin]) Sample.post_500))
     Sample.question threshold_default Sample.fresh
   = (Ok (Some Sample.diabetes_text),
      after_retrieval Sample.fresh Sample.question Sample.query_vec
        (Some Sample.diabetes_text)) /\
   search_query_only
     (Shri1Py (Sample.shri1 Sample.enc
                 (Sample.idx [Sample.m_diabetes; Sample.m_insulin]) Sample.post_500))
     Sample.question threshold_default Sample.after_diabetes
   = (Ok (Some "Insulin treats diabetes."),
      after_retrieval Sample.after_diabetes Sample.question Sample.query_vec
        (Some "Insulin treats diabetes."))).
Proof.
  assert (Hboth : forall app,
            answers_with app Sample.question Sample.query_vec
              [Sample.m_diabetes; Sample.m_insulin] ->
            search_query_only app Sample.question threshold_default Sample.fresh
            = (Ok (Some Sample.diabetes_text),
               after_retrieval Sample.fresh Sample.question Sample.query_vec
                 (Some Sample.diabetes_text)) ->
            search_query_only app Sample.question threshold_default Sample.after_diabetes
            = (Ok (Some "Insulin treats diabetes."),
               after_retrieval Sample.after_diabetes Sample.question Sample.query_vec
                 (Some "Insulin treats diabetes."))).
  { intros app Hans H1.
    pose proof (retriever_never_repeats app app Sample.question Sample.question
                  threshold_default Sample.fresh _ Sample.after_diabetes
                  Sample.diabetes_text H1 eq_refl) as (_ & _ & _ & Hnext).
    destruct (Hnext Sample.query_vec [Sample.m_diabetes; Sample.m_insulin] Hans
                eq_refl ltac:(repeat constructor)) as [Hfall _].
    apply (Hfall 1%nat Sample.m_insulin).
    - reflexivity.
    - discriminate.
    - split; [by vm_compute |]. exists "diabetes". split.
      + vm_compute. repeat constructor.
      + apply contains_spec. by vm_compute.
    - intros j m' Hj Hm'. destruct j as [|j]; [| lia].
      injection Hm' as <-. by left. }
  split.
  - assert (H1 : search_query_only
      (ServerPy (Sample.server [Sample.m_diabetes; Sample.m_insulin] Sample.post_500))
      Sample.question threshold_default Sample.fresh
      = (Ok (Some Sample.diabetes_text),
         after_retrieval Sample.fresh Sample.question Sample.query_vec
           (Some Sample.diabetes_text))) by (vm_compute; reflexivity).
    split; [exact H1 |]. apply Hboth; [| exact H1].
    exists Sample.enc, (Sample.idx [Sample.m_diabetes; Sample.m_insulin]).
    repeat split.
  - assert (H1 : search_query_only
      (Shri1Py (Sample.shri1 Sample.enc
                  (Sample.idx [Sample.m_diabetes; Sample.m_insulin]) Sample.post_500))
      Sample.question threshold_default Sample.fresh
      = (Ok (Some Sample.diabetes_text),
         after_retrieval Sample.fresh Sample.question Sample.query_vec
           (Some Sample.diabetes_text))) by (vm_compute; reflexivity).
    split; [exact H1 |]. apply Hboth; [| exact H1].
    repeat split. repeat constructor; by eexists.
Defined.

(** C10.  Unless the retriever returns a passage it leaves
    [last_disease_query] as it was, also when it raises; when it returns
    one, the dict holds that passage and the question. *)
Theorem retriever_null_keeps_state (app : App) (query : string) (threshold : Q)
    (w : World) :
  match fst (search_query_only app query threshold w) with
  | Ok (Some para) =>
      last_disease_query (snd (search_query_only app query threshold w))
      = {| lq_text := Some para; lq_name := Some query |}
  | _ =>
      last_disease_query (snd (search_query_only app query threshold w))
      = last_disease_query w
  end.
Proof.
  destruct (search_query_only app query threshold w) as [r w'] eqn:Hrun.
  apply search_query_only_frame in Hrun. cbn [fst snd].
  destruct r as [[para |] | e]; [by destruct Hrun as (_ & _ & ?) | done | done].
Qed.

(** C9.  A question of question marks and whitespace has no keyword, and
    then no candidate is accepted: [server.py] returns null whatever its
    services do, [shri1.py] returns null unless a call of it raises, and
    returns null whenever its services answer. *)
Theorem retriever_no_keywords_null (query : string) :
  Forall (fun c => c = "?"%char \/ PyStr.is_space c = true)
         (list_ascii_of_string query) ->
  keywords_of query = [] /\
  (forall sv th w, fst (Server.search_query_only sv query th w) = Ok None) /\
  (forall sv th w,
     fst (Shri1.search_query_only sv query th w) = Ok None \/
     exists e, fst (Shri1.search_query_only sv query th w) = Raise e) /\
  (forall app query_vec ms th w,
     answers_with app query query_vec ms ->
     fst (search_query_only app query th w) = Ok None).
Proof.
  intros Hblank. assert (Hk := keywords_of_blank _ Hblank).
  split; [done |].
  assert (HS : forall sv th w, fst (Server.search_query_only sv query th w) = Ok None).
  { intros sv th w. unfold Server.search_query_only.
    destruct (Server.model sv) as [enc |]; [| done].
    destruct (Server.index sv) as [idx |]; [| done].
    unfold try_except, bind, call.
    destruct (enc query) as [v | e]; [| done].
    destruct (idx v 5%nat true) as [[[ms |]] | e]; [| done ..].
    cbn [matches]. destruct ms as [|m ms]; [done |].
    unfold read_last_text. rewrite Hk.
    cbn [last_disease_query calls].
    pose proof (scan_matches_no_keywords_any Server.para_of query
                  (lq_text (last_disease_query w)) th (m :: ms)
                  {| last_disease_query := last_disease_query w;
                     calls := (calls w ++ [EncodeCall query])
                                ++ [IndexQueryCall v 5 true] |}) as H.
    destruct (scan_matches _ _ _ _ _ _ _) as [[r | e'] w']; cbn [fst] in *.
    - destruct H as [H | [e H]]; congruence.
    - done. }
  assert (HH : forall sv th w,
     fst (Shri1.search_query_only sv query th w) = Ok None \/
     exists e, fst (Shri1.search_query_only sv query th w) = Raise e).
  { intros sv th w. unfold Shri1.search_query_only, bind, call.
    destruct (Shri1.model sv query) as [v | e]; [| right; by exists e].
    cbn [last_disease_query calls].
    destruct (Shri1.index sv v 5%nat true) as [[[ms |]] | e];
      [| by left | right; by exists e].
    cbn [matches]. destruct ms as [|m ms]; [by left |].
    unfold read_last_text. rewrite Hk. cbn [last_disease_query calls].
    apply scan_matches_no_keywords_any. }
  split; [exact HS |]. split; [exact HH |].
  intros [sv | sv] v ms th w Hans; cbn [search_query_only answers_with] in *.
  - apply HS.
  - destruct Hans as (He & Hq & Hmd).
    rewrite (Shri1_search_run _ _ _ _ _ _ He Hq), Hk.
    rewrite scan_matches_no_keywords; [done |].
    intros m Hm. rewrite Forall_forall in Hmd. destruct (Hmd m Hm) as [md Hmd'].
    unfold Shri1.para_of. rewrite Hmd'. by eexists.
Qed.

(** The question [? ?] against an index whose top match scores 0.9. *)
Lemma retriever_no_keywords_null_witness :
  keywords_of "? ?" = [] /\
  fst (Server.search_query_only
         (Sample.server [Sample.m_diabetes] Sample.post_500)
         "? ?" threshold_default Sample.fresh) = Ok None.
Proof.
  assert (Hblank : Forall (fun c => c = "?"%char \/ PyStr.is_space c = true)
                     (list_ascii_of_string "? ?")).
  { repeat constructor; by right. }
  split.
  - exact (proj1 (retriever_no_keywords_null "? ?" Hblank)).
  - exact (proj1 (proj2 (retriever_no_keywords_null "? ?" Hblank)) _ _ _).
Defined.

(** C5 on [shri1.py]: the encoder raises and so does the retriever; the
    same with the index. *)
Theorem Shri1_search_query_only_propagates :
  Shri1.search_query_only
    (Sample.shri1 Sample.enc_down (Sample.idx []) Sample.post_500)
    "What is flu?" threshold_default Sample.fresh
  = (Raise (PyError "EncodingError"),
     {| last_disease_query := {| lq_text := None; lq_name := None |};
        calls := [EncodeCall "What is flu?"] |}) /\
  Shri1.search_query_only
    (Sample.shri1 Sample.enc Sample.idx_down Sample.post_500)
    "What is flu?" threshold_default Sample.fresh
  = (Raise (PyError "ConnectionError"),
     {| last_disease_query := {| lq_text := None; lq_name := None |};
        calls := [EncodeCall "What is flu?";
                  IndexQueryCall Sample.query_vec 5 true] |}).
Proof. split; reflexivity. Qed.

(** ** The answer generator *)

Section Generator.

Import PyStr.

Lemma truthy_iff (s : string) : truthy s = true <-> s <> EmptyString.
Proof. destruct s; split; done. Qed.

Lemma occurs_in_append (pre w post : string) : occurs_in w (pre +:+ w +:+ post).
Proof. by exists pre, post. Qed.

Lemma append_cons (x : ascii) (a b : string) : String x a +:+ b = String x (a +:+ b).
Proof. reflexivity. Qed.

Lemma append_assoc (a b c : string) : (a +:+ b) +:+ c = a +:+ b +:+ c.
Proof. induction a as [|x a IH]; [done | by rewrite !append_cons, IH]. Qed.

Lemma append_empty_r (a : string) : a +:+ EmptyString = a.
Proof. induction a as [|x a IH]; [done | by rewrite append_cons, IH]. Qed.

(** The request fails exactly on a failing call. *)
Lemma gemini_request_fails (post : http_client) (MODEL_NAME : string)
    (key : option string) (prompt : string) (w : World) :
  call_fails (post (gemini_url MODEL_NAME) key prompt) ->
  exists e, gemini_request post MODEL_NAME key prompt w
            = (Raise e,
               {| last_disease_query := last_disease_query w;
                  calls := calls w ++ [GeminiPost (gemini_url MODEL_NAME) key prompt] |}).
Proof.
  unfold gemini_request, bind, call, raise_for_status.
  destruct (post _ key prompt) as [e | status body]; cbn [call_fails fst snd].
  - intros _. by exists e.
  - intros [[Hlo Hhi] | [e ->]].
    + apply Z.leb_le in Hlo. apply Z.ltb_lt in Hhi. rewrite Hlo, Hhi.
      by eexists.
    + destruct (_ && _); by eexists.
Qed.

Lemma gemini_request_succeeds (post : http_client) (MODEL_NAME : string)
    (key : option string) (prompt : string) (w : World) (status_code : Z) (t : string) :
  post (gemini_url MODEL_NAME) key prompt = Response status_code (Ok t) ->
  ~ (400 <= status_code < 600)%Z ->
  gemini_request post MODEL_NAME key prompt w
  = (Ok t,
     {| last_disease_query := last_disease_query w;
        calls := calls w ++ [GeminiPost (gemini_url MODEL_NAME) key prompt] |}).
Proof.
  intros Hp Hs. unfold gemini_request, bind, call, raise_for_status. rewrite Hp.
  cbn [fst snd].
  destruct (400 <=? status_code)%Z eqn:Hlo; [| done].
  destruct (status_code <? 600)%Z eqn:Hhi; [| done].
  apply Z.leb_le in Hlo. apply Z.ltb_lt in Hhi. lia.
Qed.

(** The fallback of [server.py] quotes the question, and ends with the
    note exactly for a non-empty passage. *)
Lemma Server_safe_answer_shape (paragraph : option string) (question : string) :
  occurs_in ("You asked: " +:+ question) (Server.safe_answer paragraph question) /\
  Server.safe_answer paragraph question
  = Server.safe_answer None question
      +:+ (match paragraph with
           | Some p => if truthy p then reference_note else EmptyString
           | None => EmptyString
           end).
Proof.
  split.
  - unfold Server.safe_answer.
    set (head := "I can provide general medical information based on common knowledge. "
                 +:+ "If this is urgent or serious, please consult a medical professional immediately. ").
    assert (Hbase : forall tail,
              ("I can provide general medical information based on common knowledge. "
               +:+ "If this is urgent or serious, please consult a medical professional immediately. "
               +:+ "You asked: " +:+ question) +:+ tail
              = head +:+ ("You asked: " +:+ question) +:+ tail).
    { intros tail. unfold head. by rewrite !append_assoc. }
    destruct paragraph as [[|c p] |]; cbn [truthy].
    + exists head, EmptyString. by rewrite <- (Hbase EmptyString), append_empty_r.
    + exists head, (LF +:+ LF +:+ "(Referenced content summary applied.)").
      by rewrite <- Hbase.
    + exists head, EmptyString. by rewrite <- (Hbase EmptyString), append_empty_r.
  - unfold Server.safe_answer, reference_note.
    destruct paragraph as [[|c p] |]; cbn [truthy]; by rewrite ?append_empty_r.
Qed.

(** [server.py]: without a key, or on a failing call, [query_gemini]
    returns the fallback and does not raise. *)
Lemma Server_query_gemini_fallback (sv : Server.Services)
    (paragraph : option string) (question : string) (w : World) :
  Server.GEMINI_API_KEY sv = EmptyString \/
  call_fails (Server.requests_post sv (gemini_url (Server.MODEL_NAME sv))
                (Some (Server.GEMINI_API_KEY sv)) (prompt_of paragraph question)) ->
  fst (Server.query_gemini sv paragraph question w)
  = Ok (Server.safe_answer paragraph question).
Proof.
  unfold Server.query_gemini, bind. intros [Hk | Hf].
  - by rewrite Hk.
  - destruct (truthy (Server.GEMINI_API_KEY sv)); [| done].
    unfold try_except, bind.
    destruct (gemini_request_fails _ _ _ _ w Hf) as [e ->]. done.
Qed.

(** Neither variant's [query_gemini] raises or touches
    [last_disease_query]. *)
Lemma query_gemini_returns (app : App) (paragraph : option string)
    (question : string) (w : World) :
  exists t w',
    query_gemini app paragraph question w = (Ok t, w') /\
    last_disease_query w' = last_disease_query w.
Proof.
  assert (Hreq : forall post name key prompt,
            last_disease_query (snd (gemini_request post name key prompt w))
            = last_disease_query w).
  { intros post name key prompt. unfold gemini_request, bind, call, raise_for_status.
    destruct (post _ key prompt) as [e | status body]; [done |]. cbn [fst snd].
    destruct (_ && _); [done |]. by destruct body. }
  destruct app as [sv | sv]; cbn [query_gemini].
  - unfold Server.query_gemini, bind.
    destruct (truthy (Server.GEMINI_API_KEY sv)); [| by eexists _, _].
    unfold try_except, bind.
    specialize (Hreq (Server.requests_post sv) (Server.MODEL_NAME sv)
                  (Some (Server.GEMINI_API_KEY sv))
                  (prompt_of paragraph question)).
    destruct (gemini_request _ _ _ _ w) as [[t | e] w']; by eexists _, _.
  - unfold Shri1.query_gemini, try_except.
    specialize (Hreq (Shri1.requests_post sv) Shri1.MODEL_NAME
                  (Shri1.GEMINI_API_KEY sv) (prompt_of paragraph question)).
    destruct (gemini_request _ _ _ _ w) as [[t | e] w']; by eexists _, _.
Qed.

(** An empty passage is treated as no passage. *)
Lemma query_gemini_empty_passage (app : App) (question : string) :
  query_gemini app (Some EmptyString) question = query_gemini app None question.
Proof. by destruct app. Qed.

End Generator.

(** C4 on [shri1.py]: the post times out; the answer is the fixed warning,
    which does not quote the question, with a passage or without. *)
Theorem Shri1_query_gemini_fallback_omits_question :
  fst (Shri1.query_gemini
         (Sample.shri1 Sample.enc (Sample.idx []) Sample.post_timeout)
         None "What is flu?" Sample.fresh)
  = Ok "‚ö† Unable to get answer from Gemini." /\
  fst (Shri1.query_gemini
         (Sample.shri1 Sample.enc (Sample.idx []) Sample.post_timeout)
         (Some Sample.diabetes_text) "What is flu?" Sample.fresh)
  = Ok "‚ö† Unable to get answer from Gemini." /\
  ~ occurs_in "You asked: What is flu?" "‚ö† Unable to get answer from Gemini.".
Proof.
  split; [reflexivity |]. split; [reflexivity |].
  apply contains_false. by vm_compute.
Qed.

(** ** The translation step *)

(** C7.  With the target language [en] the translation step of either
    variant returns the text as it is and calls nothing; so does
    [server.py] for every language when it has no translator. *)
Theorem translate_en_identity (answer : string) (w : World) :
  (forall app, translate_step app answer "en" w = (Ok answer, w)) /\
  (forall model index key name post target_lang,
     Server.translate_step (Server.MkServices model index None key name post)
       answer target_lang w
     = (Ok answer, w)).
Proof.
  split.
  - intros [sv | sv]; cbn [translate_step].
    + unfold Server.translate_step. by destruct (Server.translator sv).
    + done.
  - done.
Qed.

(** The translation step never raises and leaves [last_disease_query]
    alone. *)
Lemma translate_step_returns (app : App) (answer target_lang : string) (w : World) :
  exists out w',
    translate_step app answer target_lang w = (Ok out, w') /\
    last_disease_query w' = last_disease_query w.
Proof.
  destruct app as [sv | sv]; cbn [translate_step].
  - unfold Server.translate_step.
    destruct (Server.translator sv) as [tr |]; [| by eexists _, _].
    destruct (_ && _); [| by eexists _, _].
    unfold try_except, call. destruct (tr answer target_lang); by eexists _, _.
  - unfold Shri1.translate_step.
    destruct (negb _); [| by eexists _, _].
    unfold try_except, call.
    destruct (Shri1.translator sv answer target_lang); by eexists _, _.
Qed.

(** C8.  When a translation is attempted and the backend raises, the step
    returns the untranslated text followed by the variant's warning; it
    does not raise. *)
Theorem translate_failure_appends_warning (app : App) (answer target_lang : string)
    (e : exn) (w : World) :
  translation_attempted app target_lang ->
  translation_result app answer target_lang = Some (Raise e) ->
  translate_step app answer target_lang w
  = (Ok (answer +:+ translation_warning app),
     {| last_disease_query := last_disease_query w;
        calls := calls w ++ [TranslateCall answer target_lang] |}).
Proof.
  destruct app as [sv | sv];
    cbn [translation_attempted translation_result translate_step translation_warning].
  - intros ([tr Htr] & Hne & Hen). rewrite Htr. cbn [fmap option_fmap option_map].
    intros [= Hfail]. unfold Server.translate_step. rewrite Htr.
    apply truthy_iff in Hne. rewrite Hne.
    apply String.eqb_neq in Hen. rewrite Hen. cbn [negb andb].
    unfold try_except, call. by rewrite Hfail.
  - intros Hen [= Hfail]. unfold Shri1.translate_step.
    apply String.eqb_neq in Hen. rewrite Hen. cbn [negb].
    unfold try_except, call. by rewrite Hfail.
Qed.

(** The sample translator is down: Hindi is asked for, English comes back
    with the warning. *)
Lemma translate_failure_appends_warning_witness :
  translate_step (ServerPy (Sample.server [] Sample.post_500)) Sample.generated "hi"
    Sample.fresh
  = (Ok "Diabetes symptoms include thirst and fatigue. ⚠ Translation failed.",
     {| last_disease_query := {| lq_text := None; lq_name := None |};
        calls := [TranslateCall Sample.generated "hi"] |}).
Proof.
  apply (translate_failure_appends_warning
           (ServerPy (Sample.server [] Sample.post_500)) Sample.generated "hi"
           (PyError "ConnectError") Sample.fresh).
  - split; [by eexists | split; discriminate].
  - reflexivity.
Defined.

(** ** The [/chat] handler *)

Section Chat.

Import PyStr.

(** [server.py]: a logged-in request whose question is blank gets the
    validation message; nothing is called and nothing is written. *)
Lemma Server_chat_blank_question (sv : Server.Services) (hist : history_db)
    (req : Request) (w : World) :
  is_Some (session req !! "username") ->
  strip (default EmptyString (data req !! "query")) = EmptyString ->
  Server.chat sv hist req w
  = (Ok (jsonify_answer "⚠ Please enter a valid question."), w).
Proof.
  intros [u Hu] Hq. unfold Server.chat. by rewrite Hu, Hq.
Qed.

(** [shri1.py]: the same for the empty question only. *)
Lemma Shri1_chat_empty_question (sv : Shri1.Services) (req : Request) (w : World) :
  default EmptyString (data req !! "query") = EmptyString ->
  Shri1.chat sv req w = (Ok (jsonify_answer "‚ùå Please enter a valid question."), w).
Proof.
  intros Hq. unfold Shri1.chat, try_except. by rewrite Hq.
Qed.

(** A string of whitespace strips to the empty string. *)
Lemma strip_blank (s : string) :
  Forall (fun c => is_space c = true) (list_ascii_of_string s) -> strip s = EmptyString.
Proof.
  unfold strip. induction s as [|c s IH]; [done |].
  simpl. intros H. inversion H as [|? ? Hc Hs]; subst. rewrite Hc. by apply IH.
Qed.

(** The history insert begins with the connect and adds calls to the
    database only; it never writes [last_disease_query]. *)
Lemma save_chat_world (hist : history_db) (username message response : string)
    (w : World) :
  last_disease_query (snd (Server.save_chat hist username message response w))
  = last_disease_query w /\
  exists l,
    calls (snd (Server.save_chat hist username message response w))
    = calls w ++ DbConnect :: l /\
    Forall (fun ev => ~ service_call ev) l.
Proof.
  unfold Server.save_chat, try_finally, try_except, bind, db_call, call.
  cbn [last_disease_query calls].
  destruct (hist AtConnect); cbn [last_disease_query calls snd].
  - split; [done |]. exists []. split; [done | constructor].
  - destruct (hist AtCursor), (hist AtInsert), (hist AtCommit), (hist AtRollback),
      (hist AtClose);
      cbn [last_disease_query calls snd]; (split; [done |]);
      rewrite <- ?app_assoc; eexists; (split; [reflexivity |]);
      repeat constructor; by intros [].
Qed.

(** When [rollback()] and [close()] do not raise, the history insert
    returns, whatever connect, insert and commit do. *)
Lemma save_chat_returns (hist : history_db) (username message response : string)
    (w : World) :
  hist AtRollback = None -> hist AtClose = None ->
  fst (Server.save_chat hist username message response w) = Ok tt.
Proof.
  intros Hr Hc.
  unfold Server.save_chat, try_finally, try_except, bind, db_call, call.
  rewrite Hr, Hc. destruct (hist AtConnect); [done |].
  by destruct (hist AtCursor), (hist AtInsert), (hist AtCommit).
Qed.

End Chat.

(** C3 on [shri1.py]: the question is one blank.  The handler does not
    answer with the validation message; it calls the encoder, the index,
    the generation service and the translator. *)
Theorem Shri1_chat_whitespace_runs_pipeline :
  Shri1.chat (Sample.shri1 Sample.enc (Sample.idx []) (Sample.post_ok Sample.generated))
    (Sample.request " " "hi") Sample.fresh
  = (Ok (jsonify_answer
           (Sample.generated +:+ LF +:+ LF
              +:+ "‚ö† Translation failed. Showing English answer.")),
     {| last_disease_query := {| lq_text := None; lq_name := None |};
        calls :=
          [EncodeCall " ";
           IndexQueryCall Sample.query_vec 5 true;
           GeminiPost (gemini_url Shri1.MODEL_NAME) (Some "key")
             (prompt_of None " ");
           TranslateCall Sample.generated "hi"] |}).
Proof. by vm_compute. Qed.

(** C6, as the claim words it, fails on the handler.  In the scenario of
    the claim the response is the object with the one key [answer]: it
    has no [usedPassage] entry.  A question of blanks, which is not
    empty, gets the validation message of [server.py] and no generated
    answer.  And when the [close()] of the history insert raises, the
    handler of [server.py] raises instead of answering. *)
Lemma chat_response_cex :
  (fst (chat (ServerPy (Sample.server [] (Sample.post_ok Sample.generated)))
          Sample.db_up (Sample.request Sample.question "en") Sample.fresh)
   = Ok {[ "answer" := "Diabetes symptoms include thirst and fatigue." ]} /\
   ({[ "answer" := "Diabetes symptoms include thirst and fatigue." ]}
      : gmap string string) !! "usedPassage" = None) /\
  chat (ServerPy (Sample.server [] (Sample.post_ok Sample.generated)))
    Sample.db_up (Sample.request "  " "en") Sample.fresh
  = (Ok {[ "answer" := "⚠ Please enter a valid question." ]}, Sample.fresh) /\
  fst (chat (ServerPy (Sample.server [] (Sample.post_ok Sample.generated)))
         Sample.db_close_fails (Sample.request Sample.question "en") Sample.fresh)
  = Raise (PyError "OperationalError").
Proof.
  split; [split | split].
  - by vm_compute.
  - by apply lookup_singleton_ne.
  - by vm_compute.
  - by vm_compute.
Qed.

(** C6 (amended).  For a request the handler admits, whose body is a JSON
    object with string values and whose question is ASCII and, as the
    handler passes it on, not empty; in [server.py] provided the
    [rollback()] and [close()] of the history insert do not raise: when
    the retriever returns [para], the generator returns [raw] for [para]
    and the question, and the translation step returns [final] for [raw]
    and the language, the response is the object [{answer: final}], and
    [last_disease_query] is as the retriever left it. *)
Theorem chat_is_composition (app : App) (hist : history_db) (req : Request)
    (w w1 w2 w3 : World) (para : option string) (raw final : string) :
  admitted app req ->
  question_of app req <> EmptyString ->
  ascii_text (default EmptyString (data req !! "query")) ->
  hist AtRollback = None ->
  hist AtClose = None ->
  search_query_only app (question_of app req) threshold_default w = (Ok para, w1) ->
  query_gemini app para (question_of app req) w1 = (Ok raw, w2) ->
  translate_step app raw (language_of req) w2 = (Ok final, w3) ->
  fst (chat app hist req w) = Ok {[ "answer" := final ]} /\
  last_disease_query (snd (chat app hist req w)) = last_disease_query w1.
Proof.
  intros Hadm Hq _ Hrb Hcl Hs Hg Ht.
  assert (Hw2 : last_disease_query w2 = last_disease_query w1).
  { destruct (query_gemini_returns app para (question_of app req) w1)
      as (t & w' & Hrun & Hl). rewrite Hg in Hrun. by injection Hrun as <- <-. }
  assert (Hw3 : last_disease_query w3 = last_disease_query w1).
  { destruct (translate_step_returns app raw (language_of req) w2)
      as (t & w' & Hrun & Hl). rewrite Ht in Hrun. injection Hrun as <- <-. congruence. }
  apply truthy_iff in Hq.
  destruct app as [sv | sv];
    cbn [admitted question_of search_query_only query_gemini translate_step chat] in *.
  - destruct Hadm as [u Hu].
    assert (Hgen : (match para with
                    | Some p => if PyStr.truthy p
                                then Server.query_gemini sv (Some p)
                                       (PyStr.strip (default EmptyString (data req !! "query")))
                                else Server.query_gemini sv None
                                       (PyStr.strip (default EmptyString (data req !! "query")))
                    | None => Server.query_gemini sv None
                                (PyStr.strip (default EmptyString (data req !! "query")))
                    end) w1 = (Ok raw, w2)).
    { destruct para as [p |]; [| done].
      apply (search_query_only_frame (ServerPy sv)) in Hs as (_ & Hp & _).
      by rewrite Hp. }
    pose proof (save_chat_returns hist u
                  (PyStr.strip (default EmptyString (data req !! "query"))) final w3
                  Hrb Hcl) as Hsave.
    destruct (save_chat_world hist u
                (PyStr.strip (default EmptyString (data req !! "query"))) final w3)
      as [Hsl _].
    assert (Hrun : Server.chat sv hist req w
                   = (Ok (jsonify_answer final),
                      snd (Server.save_chat hist u
                             (PyStr.strip (default EmptyString (data req !! "query")))
                             final w3))).
    { unfold Server.chat. rewrite Hu, Hq. cbn [negb].
      unfold bind, try_except. rewrite Hs. cbn beta iota. rewrite Hgen.
      fold (language_of req). rewrite Ht.
      destruct (Server.save_chat hist u _ final w3) as [r4 w4]. cbn [fst snd] in *.
      by subst r4. }
    rewrite Hrun. cbn [fst snd]. split; [done | congruence].
  - assert (Hrun : Shri1.chat sv req w = (Ok (jsonify_answer final), w3)).
    { unfold Shri1.chat, try_except. rewrite Hq. cbn [negb].
      unfold bind. rewrite Hs. cbn beta iota. rewrite Hg.
      fold (language_of req). rewrite Ht. reflexivity. }
    rewrite Hrun. done.
Qed.

(** The scenario of the claim on [server.py]: the index returns no match,
    the generation service returns its text, the language is [en]. *)
Lemma chat_is_composition_witness :
  fst (chat (ServerPy (Sample.server [] (Sample.post_ok Sample.generated)))
         Sample.db_up (Sample.request Sample.question "en") Sample.fresh)
  = Ok {[ "answer" := "Diabetes symptoms include thirst and fatigue." ]}.
Proof.
  refine (proj1 (chat_is_composition
           (ServerPy (Sample.server [] (Sample.post_ok Sample.generated)))
           Sample.db_up
           (Sample.request Sample.question "en") Sample.fresh
           (after_retrieval Sample.fresh Sample.question Sample.query_vec None)
           {| last_disease_query := {| lq_text := None; lq_name := None |};
              calls := [EncodeCall Sample.question;
                        IndexQueryCall Sample.query_vec 5 true;
                        GeminiPost (gemini_url "models/gemini-2.0-flash") (Some "key")
                          (prompt_of None Sample.question)] |}
           {| last_disease_query := {| lq_text := None; lq_name := None |};
              calls := [EncodeCall Sample.question;
                        IndexQueryCall Sample.query_vec 5 true;
                        GeminiPost (gemini_url "models/gemini-2.0-flash") (Some "key")
                          (prompt_of None Sample.question)] |}
           None Sample.generated Sample.generated _ _ _ _ _ _ _ _)).
  - by eexists.
  - by vm_compute.
  - by vm_compute.
  - reflexivity.
  - reflexivity.
  - by vm_compute.
  - by vm_compute.
  - by vm_compute.
Defined.

(** * Further properties of the code *)

(** ** Strings *)

Section MoreStringFacts.

Import PyStr.

Lemma chars_append (a b : string) :
  list_ascii_of_string (a +:+ b) = list_ascii_of_string a ++ list_ascii_of_string b.
Proof.
  induction a as [|x a IH]; [done |]. rewrite append_cons. simpl. by rewrite IH.
Qed.

Lemma lower_char_idem (c : ascii) : lower_char (lower_char c) = lower_char c.
Proof.
  destruct c as [[] [] [] [] [] [] [] []]; by vm_compute.
Qed.

Lemma lower_char_is_space (c : ascii) : is_space (lower_char c) = is_space c.
Proof.
  destruct c as [[] [] [] [] [] [] [] []]; by vm_compute.
Qed.

(** The words [split_from] yields are made of the characters it reads,
    none of them whitespace. *)
Lemma split_from_chars (P : ascii -> Prop) (s cur : string) :
  Forall (fun c => is_space c = false /\ P c) (list_ascii_of_string cur) ->
  Forall P (list_ascii_of_string s) ->
  Forall (fun w => Forall (fun c => is_space c = false /\ P c) (list_ascii_of_string w))
         (split_from cur s).
Proof.
  revert cur; induction s as [|c s IH]; intros cur Hcur Hs; simpl.
  - destruct cur; [constructor | constructor; [done | constructor]].
  - simpl in Hs. inversion Hs as [|? ? Hc Hs']; subst.
    destruct (is_space c) eqn:Hsp.
    + destruct cur as [|d cur]; [by apply IH |].
      constructor; [done | by apply IH].
    + apply IH; [| done]. rewrite chars_append. apply Forall_app. split; [done |].
      by repeat constructor.
Qed.

Lemma Forall_trivial (s : string) : Forall (fun _ : ascii => True) (list_ascii_of_string s).
Proof. by apply Forall_forall. Qed.

Lemma split_words (s : string) : Forall is_word (split s).
Proof.
  apply Forall_forall. intros w Hw. split; [by eapply split_nonempty |].
  pose proof (split_from_chars (fun _ => True) s EmptyString
                (List.Forall_nil _) (Forall_trivial s)) as H.
  rewrite Forall_forall in H. specialize (H w Hw).
  eapply Forall_impl; [exact H |]. by intros c [? _].
Qed.

(** X1.  Every keyword of a question is a non-empty run of characters
    none of which is whitespace, a question mark or an upper-case ASCII
    letter. *)
Theorem keywords_wellformed (query : string) :
  Forall (fun word =>
            word <> EmptyString /\
            Forall (fun c => is_space c = false /\ c <> "?"%char /\ lower_char c = c)
                   (list_ascii_of_string word))
         (keywords_of query).
Proof.
  apply Forall_forall. intros word Hw. split; [by eapply split_nonempty |].
  unfold keywords_of, split in Hw.
  assert (Hchars : Forall (fun c => c <> "?"%char /\ lower_char c = c)
                     (list_ascii_of_string (remove_char "?" (lower query)))).
  2: { pose proof (split_from_chars _ _ EmptyString (List.Forall_nil _) Hchars) as H.
       rewrite Forall_forall in H. exact (H word Hw). }
  clear. induction query as [|c q IH]; simpl; [constructor |].
  destruct (Ascii.eqb (lower_char c) "?") eqn:Hq; [done |].
  simpl. constructor; [| done]. split; [| apply lower_char_idem].
  intros Heq. rewrite Heq in Hq. by vm_compute in Hq.
Qed.

Lemma lstrip_head (s : string) (c : ascii) (r : string) :
  lstrip s = String c r -> is_space c = false.
Proof.
  induction s as [|d s IH]; simpl; [done |].
  destruct (is_space d) eqn:Hd; [done |]. by intros [= <- <-].
Qed.

Lemma lstrip_fixed (s : string) :
  match s with EmptyString => True | String c _ => is_space c = false end ->
  lstrip s = s.
Proof. destruct s as [|c s]; [done |]. simpl. by intros ->. Qed.

Lemma rstrip_head (c : ascii) (s : string) :
  is_space c = false -> exists r, rstrip (String c s) = String c r.
Proof.
  intros Hc. simpl. destruct (rstrip s); rewrite ?Hc; by eexists.
Qed.

Lemma rstrip_idem (s : string) : rstrip (rstrip s) = rstrip s.
Proof.
  induction s as [|c s IH]; [done |]. simpl.
  destruct (rstrip s) as [|d r] eqn:Hr.
  - destruct (is_space c) eqn:Hc; [done |]. simpl. by rewrite Hc.
  - change (rstrip (String c (String d r))) with
      (match rstrip (String d r) with
       | EmptyString => if is_space c then EmptyString else String c EmptyString
       | r' => String c r'
       end).
    by rewrite IH.
Qed.

(** [strip] is idempotent. *)
Lemma strip_idem (s : string) : strip (strip s) = strip s.
Proof.
  unfold strip. rewrite (lstrip_fixed (rstrip (lstrip s))); [apply rstrip_idem |].
  destruct (lstrip s) as [|c r] eqn:Hl; [done |].
  apply lstrip_head in Hl. destruct (rstrip_head c r Hl) as [r' ->]. done.
Qed.

End MoreStringFacts.

(** ** More on the passage retriever *)

Section MoreLoop.

Import PyStr.

Variable para_of : Match -> outcome string.

(** A text the loop returns was read from one of the matches and passed
    every test of the iteration. *)
Lemma scan_matches_sound (query : string) (threshold : Q) (kws : list string)
    (previous_text : option string) (ms : list Match) (w w' : World) (p : string) :
  scan_matches para_of query threshold kws previous_text ms w = (Ok (Some p), w') ->
  exists m,
    m ∈ ms /\ para_of m = Ok p /\ truthy p = true /\ Some p <> previous_text /\
    Qle_bool threshold (score_of m) = true /\
    existsb (fun word => contains word (lower p)) kws = true.
Proof.
  induction ms as [|m ms IH]; cbn [scan_matches]; [by intros [= ] |].
  destruct (para_of m) as [para | e] eqn:Hp; [| by intros [= ]].
  assert (Hrest : scan_matches para_of query threshold kws previous_text ms w
                  = (Ok (Some p), w') ->
                  exists m0, m0 ∈ m :: ms /\ para_of m0 = Ok p /\ truthy p = true /\
                    Some p <> previous_text /\
                    Qle_bool threshold (score_of m0) = true /\
                    existsb (fun word => contains word (lower p)) kws = true).
  { intros H. destruct (IH H) as (m0 & Hin & Hrest). exists m0. split; [by right | done]. }
  destruct (truthy para) eqn:Ht; cbn [negb orb]; [| exact Hrest].
  destruct (bool_decide (Some para = previous_text)) eqn:Hd; [exact Hrest |].
  fold (score_of m).
  destruct (Qle_bool threshold (score_of m)) eqn:Hs; cbn [andb]; [| exact Hrest].
  destruct (existsb (fun word => contains word (lower para)) kws) eqn:Hk;
    [| exact Hrest].
  unfold bind, update_last_query, ret. intros [= <- <-].
  exists m. apply bool_decide_eq_false in Hd. repeat split; try done. left.
Qed.

(** The loop stops with the exception of the first match that cannot be
    read, when no match before it qualifies. *)
Lemma scan_matches_raises (query : string) (previous_text : option string)
    (ms : list Match) (i : nat) (m : Match) (e : exn) (w : World) :
  ms !! i = Some m ->
  para_of m = Raise e ->
  (forall j m', (j < i)%nat -> ms !! j = Some m' ->
     para_of m' = Ok (passage_text m') /\ ~ qualifies query previous_text m') ->
  scan_matches para_of query (3 # 4) (keywords_of query) previous_text ms w = (Raise e, w).
Proof.
  revert i; induction ms as [|m0 ms IH]; intros i Hi Hraise Hbefore; [done |].
  destruct i as [|i]; simpl in Hi.
  - injection Hi as ->. cbn [scan_matches]. by rewrite Hraise.
  - destruct (Hbefore 0%nat m0) as [Hp0 Hn]; [lia | done |].
    rewrite scan_matches_cons by done.
    rewrite <- accept_test_iff in Hn. cbv zeta in Hn.
    apply not_true_is_false in Hn. rewrite Hn.
    apply (IH i); [done | done |].
    intros j m' Hj Hm'. apply (Hbefore (S j)); [lia | done].
Qed.

End MoreLoop.

Section MoreRetriever.

Import PyStr.

(** A passage the retriever returns is the stripped text of one of the
    matches the index gave; that match passed the tests of the loop. *)
Lemma search_query_only_sound (app : App) (query : string) (threshold : Q)
    (w w' : World) (p : string) :
  search_query_only app query threshold w = (Ok (Some p), w') ->
  exists query_vec ms m,
    index_gave app query query_vec ms /\ m ∈ ms /\
    p = passage_text m /\
    (threshold <= score_of m)%Q /\
    (exists word, word ∈ keywords_of query /\ occurs_in word (lower p)) /\
    Some p <> lq_text (last_disease_query w).
Proof.
  assert (Hfin : forall para_of ms w0,
            (forall m, para_of m = Ok p -> p = passage_text m) ->
            scan_matches para_of query threshold (keywords_of query)
              (lq_text (last_disease_query w)) ms w0 = (Ok (Some p), w') ->
            exists m, m ∈ ms /\ p = passage_text m /\ (threshold <= score_of m)%Q /\
              (exists word, word ∈ keywords_of query /\ occurs_in word (lower p)) /\
              Some p <> lq_text (last_disease_query w)).
  { intros para_of ms w0 Hpara Hscan.
    apply scan_matches_sound in Hscan as (m & Hin & Hp & _ & Hne & Hs & Hk).
    exists m. split; [done |]. split; [by apply Hpara |].
    split; [by apply Qle_bool_iff |]. split; [| done].
    apply existsb_exists in Hk as (word & Hw & Hc).
    exists word. by rewrite list_elem_of_In, <- contains_spec. }
  destruct app as [sv | sv]; cbn [search_query_only index_gave].
  - unfold Server.search_query_only.
    destruct (Server.model sv) as [enc |] eqn:Hm; [| by intros [= ]].
    destruct (Server.index sv) as [idx |] eqn:Hi; [| by intros [= ]].
    unfold try_except, bind, call.
    destruct (enc query) as [v | e] eqn:He; [| by intros [= ]].
    destruct (idx v 5%nat true) as [[[ms |]] | e] eqn:Hq; [| by intros [= ] ..].
    cbn [matches]. destruct ms as [|m0 ms]; [by intros [= ] |].
    unfold read_last_text. cbn [last_disease_query calls].
    destruct (scan_matches _ _ _ _ _ _ _) as [[r0 | e] w0] eqn:Hscan; [| by intros [= ]].
    intros [= -> ->].
    apply (Hfin Server.para_of) in Hscan as (m & Hrest);
      [| intros m1 Hm1; unfold Server.para_of in Hm1; by injection Hm1 as <-].
    exists v, (m0 :: ms), m. split; [by exists enc, idx | done].
  - unfold Shri1.search_query_only, bind, call.
    destruct (Shri1.model sv query) as [v | e] eqn:He; [| by intros [= ]].
    cbn [last_disease_query calls].
    destruct (Shri1.index sv v 5%nat true) as [[[ms |]] | e] eqn:Hq; [| by intros [= ] ..].
    cbn [matches]. destruct ms as [|m0 ms]; [by intros [= ] |].
    unfold read_last_text. cbn [last_disease_query calls].
    intros Hscan.
    apply (Hfin Shri1.para_of) in Hscan as (m & Hrest).
    + exists v, (m0 :: ms), m. done.
    + intros m1. unfold Shri1.para_of, passage_text.
      destruct (m_metadata m1); [intros Hm1; by injection Hm1 as <- | done].
Qed.

(** X2.  For a question in ASCII and an index whose match texts are
    ASCII (where the embedded [lower], [strip] and [split] are Python's):
    a passage the retriever returns, at whatever threshold, is the
    stripped text of one of the matches the index gave for this
    question; that match scores at least the threshold (a missing score
    counts as 0), a keyword of the question occurs in the lowercased
    passage, and the passage is not the one remembered from before. *)
Theorem retriever_sound (app : App) (query : string) (threshold : Q)
    (w w' : World) (p : string) :
  ascii_text query ->
  (forall query_vec ms, index_gave app query query_vec ms -> ascii_matches ms) ->
  search_query_only app query threshold w = (Ok (Some p), w') ->
  exists query_vec ms m,
    index_gave app query query_vec ms /\ m ∈ ms /\
    p = passage_text m /\
    (threshold <= score_of m)%Q /\
    (exists word, word ∈ keywords_of query /\ occurs_in word (lower p)) /\
    Some p <> lq_text (last_disease_query w).
Proof. intros _ _. apply search_query_only_sound. Qed.

(** The sample index gives two matches; the returned text is the second
    one's. *)
Lemma retriever_sound_witness :
  exists query_vec ms m,
    index_gave
      (ServerPy (Sample.server [Sample.m_diabetes; Sample.m_insulin] Sample.post_500))
      Sample.question query_vec ms /\ m ∈ ms /\
    "Insulin treats diabetes." = passage_text m /\
    (threshold_default <= score_of m)%Q /\
    (exists word, word ∈ keywords_of Sample.question /\
                  occurs_in word (lower "Insulin treats diabetes.")) /\
    Some "Insulin treats diabetes." <> lq_text (last_disease_query Sample.after_diabetes).
Proof.
  apply (retriever_sound
           (ServerPy (Sample.server [Sample.m_diabetes; Sample.m_insulin] Sample.post_500))
           Sample.question threshold_default Sample.after_diabetes
           (after_retrieval Sample.after_diabetes Sample.question Sample.query_vec
              (Some "Insulin treats diabetes."))).
  - reflexivity.
  - intros query_vec ms (enc & idx & Hm & Hi & _ & Hq).
    injection Hi as <-. injection Hq as <-. repeat constructor.
  - by vm_compute.
Defined.

(** X3.  A passage the retriever returns is not empty and has no
    whitespace at either end: stripping it again changes nothing. *)
Theorem retriever_returns_trimmed (app : App) (query : string) (threshold : Q)
    (w w' : World) (p : string) :
  search_query_only app query threshold w = (Ok (Some p), w') ->
  p <> EmptyString /\ strip p = p.
Proof.
  intros Hrun. split.
  - apply search_query_only_frame in Hrun as (_ & Ht & _). by apply truthy_iff.
  - apply search_query_only_sound in Hrun as (v & ms & m & _ & _ & -> & _).
    apply strip_idem.
Qed.

(** The match with blanks around its text. *)
Lemma retriever_returns_trimmed_witness :
  "diabetes care" <> EmptyString /\ strip "diabetes care" = "diabetes care".
Proof.
  apply (retriever_returns_trimmed
           (ServerPy (Sample.server [Sample.m_padded] Sample.post_500))
           Sample.question threshold_default Sample.fresh
           (after_retrieval Sample.fresh Sample.question Sample.query_vec
              (Some "diabetes care"))).
  by vm_compute.
Defined.

(** What the retriever adds to the log of calls: the encoder call with
    the question, and after an encoder answer the one index query. *)
Lemma search_query_only_asks (app : App) (query : string) (threshold : Q)
    (w : World) :
  calls (snd (search_query_only app query threshold w))
  = calls w ++
    match encoder_answer app query with
    | None => []
    | Some (Raise _) => [EncodeCall query]
    | Some (Ok query_vec) => [EncodeCall query; IndexQueryCall query_vec 5 true]
    end.
Proof.
  assert (Hscan : forall para_of v ms,
            calls (snd (scan_matches para_of query threshold (keywords_of query)
                          (lq_text (last_disease_query w)) ms
                          {| last_disease_query := last_disease_query w;
                             calls := (calls w ++ [EncodeCall query])
                                        ++ [IndexQueryCall v 5 true] |}))
            = calls w ++ [EncodeCall query; IndexQueryCall v 5 true]).
  { intros para_of v ms.
    destruct (scan_matches _ _ _ _ _ _ _) as [r w0] eqn:H.
    apply scan_matches_frame in H. cbn [snd]. rewrite <- app_assoc in H.
    destruct r as [[para |] | e]; [by destruct H as (_ & _ & ->) | by subst | by subst]. }
  destruct app as [sv | sv]; cbn [search_query_only encoder_answer].
  - unfold Server.search_query_only.
    destruct (Server.model sv) as [enc |]; [| by rewrite app_nil_r].
    destruct (Server.index sv) as [idx |]; [| by rewrite app_nil_r].
    unfold try_except, bind, call.
    destruct (enc query) as [v | e]; [| done].
    cbn [last_disease_query calls].
    destruct (idx v 5%nat true) as [[[ms |]] | e];
      [| cbn; by rewrite <- app_assoc ..].
    cbn [matches]. destruct ms as [|m0 ms];
      [cbn; by rewrite <- app_assoc |].
    unfold read_last_text. cbn [last_disease_query calls].
    specialize (Hscan Server.para_of v (m0 :: ms)).
    destruct (scan_matches _ _ _ _ _ _ _) as [[r | e] w0]; exact Hscan.
  - unfold Shri1.search_query_only, bind, call.
    destruct (Shri1.model sv query) as [v | e]; [| done].
    cbn [last_disease_query calls].
    destruct (Shri1.index sv v 5%nat true) as [[[ms |]] | e];
      [| cbn; by rewrite <- app_assoc ..].
    cbn [matches]. destruct ms as [|m0 ms];
      [cbn; by rewrite <- app_assoc |].
    unfold read_last_text. cbn [last_disease_query calls].
    apply Hscan.
Qed.

(** X4.  The retriever contacts the outside at most twice: first the
    encoder with the question as it was given, then, when the encoder
    answers with a vector, the index with that very vector, [top_k = 5]
    and the metadata asked for.  [server.py] with the encoder or the
    index missing contacts nobody.  The retriever calls neither the
    generation service nor the translator nor the database. *)
Theorem retriever_calls (app : App) (query : string) (threshold : Q) (w : World) :
  match encoder_answer app query with
  | None =>
      calls (snd (search_query_only app query threshold w)) = calls w
  | Some (Raise _) =>
      calls (snd (search_query_only app query threshold w))
      = calls w ++ [EncodeCall query]
  | Some (Ok query_vec) =>
      calls (snd (search_query_only app query threshold w))
      = calls w ++ [EncodeCall query; IndexQueryCall query_vec 5 true]
  end.
Proof.
  rewrite search_query_only_asks.
  destruct (encoder_answer app query) as [[v | e] |]; [done | done |].
  by rewrite app_nil_r.
Qed.

(** X5.  [server.py]: the retriever never raises, and it returns null
    with [last_disease_query] untouched when the encoder or the index is
    missing, when the encoder or the index query raises, and when the
    index answers without matches. *)
Theorem Server_retriever_degrades (sv : Server.Services) (query : string)
    (threshold : Q) (w : World) :
  (exists r, fst (Server.search_query_only sv query threshold w) = Ok r) /\
  ((Server.model sv = None \/ Server.index sv = None \/
    (exists enc e, Server.model sv = Some enc /\ enc query = Raise e) \/
    (exists enc idx v, Server.model sv = Some enc /\ Server.index sv = Some idx /\
       enc query = Ok v /\
       (idx v 5%nat true = Ok (MkQueryResponse None) \/
        idx v 5%nat true = Ok (MkQueryResponse (Some [])) \/
        exists e, idx v 5%nat true = Raise e))) ->
   fst (Server.search_query_only sv query threshold w) = Ok None /\
   last_disease_query (snd (Server.search_query_only sv query threshold w))
   = last_disease_query w).
Proof.
  split.
  - apply Server_search_query_only_returns.
  - apply Server_search_query_only_unavailable.
Qed.

(** The encoder of the sample is down and the index is there. *)
Lemma Server_retriever_degrades_witness :
  fst (Server.search_query_only
         {| Server.model := Some Sample.enc_down;
            Server.index := Some (Sample.idx [Sample.m_diabetes]);
            Server.translator := None;
            Server.GEMINI_API_KEY := EmptyString;
            Server.MODEL_NAME := "models/gemini-2.0-flash";
            Server.requests_post := Sample.post_500 |}
         Sample.question threshold_default Sample.after_diabetes) = Ok None.
Proof.
  refine (proj1 (proj2 (Server_retriever_degrades _ _ _ _) _)).
  right. right. left. exists Sample.enc_down, (PyError "EncodingError"). by split.
Defined.

(** X6.  For a question and match texts in ASCII: [shri1.py] reads
    [match["metadata"]], so when the index answers with a match that has
    no metadata and no match before it qualifies, the retriever raises
    the [KeyError] and writes nothing; [server.py] reads the key with a
    default and goes on to the matches behind it. *)
Theorem Shri1_missing_metadata_raises (sv : Shri1.Services) (query : string)
    (query_vec : list Q) (ms : list Match) (i : nat) (m : Match) (w : World) :
  ascii_text query ->
  ascii_matches ms ->
  Shri1.model sv query = Ok query_vec ->
  Shri1.index sv query_vec 5%nat true = Ok (MkQueryResponse (Some ms)) ->
  ms !! i = Some m ->
  m_metadata m = None ->
  (forall j m', (j < i)%nat -> ms !! j = Some m' ->
     is_Some (m_metadata m') /\
     ~ qualifies query (lq_text (last_disease_query w)) m') ->
  Shri1.search_query_only sv query threshold_default w
  = (Raise (PyError "KeyError: 'metadata'"), after_retrieval w query query_vec None) /\
  forall ssv : Server.Services,
    index_gave (ServerPy ssv) query query_vec ms ->
    (forall m', m' ∈ ms -> ~ qualifies query (lq_text (last_disease_query w)) m') ->
    Server.search_query_only ssv query threshold_default w
    = (Ok None, after_retrieval w query query_vec None).
Proof.
  intros _ _ He Hq Hi Hmd Hbefore. split.
  - rewrite (Shri1_search_run _ _ _ _ _ _ He Hq). unfold threshold_default.
    apply (scan_matches_raises Shri1.para_of _ _ _ i m).
    + done.
    + unfold Shri1.para_of. by rewrite Hmd.
    + intros j m' Hj Hm'. destruct (Hbefore j m' Hj Hm') as [[md Hmd'] Hn].
      split; [| done]. unfold Shri1.para_of, passage_text. by rewrite Hmd'.
  - intros ssv Hgave Hno.
    exact (proj2 (search_query_only_first (ServerPy ssv) query query_vec
                    ms w Hgave) Hno).
Qed.

(** The only match has a score and no metadata. *)
Lemma Shri1_missing_metadata_raises_witness :
  Shri1.search_query_only
    (Sample.shri1 Sample.enc (Sample.idx [MkMatch (Some (9 # 10)) None]) Sample.post_500)
    Sample.question threshold_default Sample.fresh
  = (Raise (PyError "KeyError: 'metadata'"),
     after_retrieval Sample.fresh Sample.question Sample.query_vec None).
Proof.
  refine (proj1 (Shri1_missing_metadata_raises
                   (Sample.shri1 Sample.enc (Sample.idx [MkMatch (Some (9 # 10)) None])
                      Sample.post_500)
                   Sample.question Sample.query_vec [MkMatch (Some (9 # 10)) None]
                   0%nat (MkMatch (Some (9 # 10)) None) Sample.fresh
                   eq_refl _ eq_refl eq_refl eq_refl eq_refl _)).
  - repeat constructor.
  - intros j m' Hj. lia.
Defined.

End MoreRetriever.

(** ** More on the answer generator and the translation step *)

Section MoreGenerator.

Import PyStr.

(** The request is one post, whatever comes back. *)
Lemma gemini_request_world (post : http_client) (MODEL_NAME : string)
    (key : option string) (prompt : string) (w : World) :
  snd (gemini_request post MODEL_NAME key prompt w)
  = {| last_disease_query := last_disease_query w;
       calls := calls w ++ [GeminiPost (gemini_url MODEL_NAME) key prompt] |}.
Proof.
  unfold gemini_request, bind, call, raise_for_status.
  destruct (post _ key prompt) as [e | status body]; [done |]. cbn [fst snd].
  destruct (_ && _); [done |]. by destruct body.
Qed.

(** X7.  [server.py]: without an API key [query_gemini] posts nothing
    and returns the fallback answer; with a key and a failing call (the
    post raises, the status is 4xx or 5xx, or the body does not yield the
    text) it has posted once and returns the same fallback. *)
Theorem Server_query_gemini_degrades (sv : Server.Services)
    (paragraph : option string) (question : string) (w : World) :
  (Server.GEMINI_API_KEY sv = EmptyString ->
   Server.query_gemini sv paragraph question w
   = (Ok (Server.safe_answer paragraph question), w)) /\
  (Server.GEMINI_API_KEY sv <> EmptyString ->
   call_fails (Server.requests_post sv (gemini_url (Server.MODEL_NAME sv))
                 (Some (Server.GEMINI_API_KEY sv)) (prompt_of paragraph question)) ->
   Server.query_gemini sv paragraph question w
   = (Ok (Server.safe_answer paragraph question),
      {| last_disease_query := last_disease_query w;
         calls := calls w ++
           [GeminiPost (gemini_url (Server.MODEL_NAME sv))
              (Some (Server.GEMINI_API_KEY sv)) (prompt_of paragraph question)] |})).
Proof.
  unfold Server.query_gemini, bind. split.
  - by intros ->.
  - intros Hk Hf. apply truthy_iff in Hk. rewrite Hk.
    unfold try_except, bind.
    destruct (gemini_request_fails _ _ _ _ w Hf) as [e ->]. done.
Qed.

(** A server without a key, and one whose post answers with status 500. *)
Lemma Server_query_gemini_degrades_witness :
  Server.query_gemini
    {| Server.model := None; Server.index := None; Server.translator := None;
       Server.GEMINI_API_KEY := EmptyString;
       Server.MODEL_NAME := "models/gemini-2.0-flash";
       Server.requests_post := Sample.post_ok Sample.generated |}
    None Sample.question Sample.fresh
  = (Ok (Server.safe_answer None Sample.question), Sample.fresh) /\
  fst (Server.query_gemini (Sample.server [] Sample.post_500)
         (Some Sample.diabetes_text) Sample.question Sample.fresh)
  = Ok (Server.safe_answer (Some Sample.diabetes_text) Sample.question).
Proof.
  split.
  - refine (proj1 (Server_query_gemini_degrades _ None Sample.question Sample.fresh) _).
    reflexivity.
  - refine (f_equal fst
              (proj2 (Server_query_gemini_degrades (Sample.server [] Sample.post_500)
                        (Some Sample.diabetes_text) Sample.question Sample.fresh) _ _)).
    + discriminate.
    + left. cbn. lia.
Defined.

(** X8.  When the post comes back with a status outside 400..599 and a
    body that yields the text, [query_gemini] returns that text as it
    was received, after exactly one post ([server.py]: given a key). *)
Theorem query_gemini_returns_generated (paragraph : option string) (question : string)
    (w : World) (status_code : Z) (t : string) :
  ~ (400 <= status_code < 600)%Z ->
  (forall sv : Server.Services,
     Server.GEMINI_API_KEY sv <> EmptyString ->
     Server.requests_post sv (gemini_url (Server.MODEL_NAME sv))
       (Some (Server.GEMINI_API_KEY sv)) (prompt_of paragraph question)
     = Response status_code (Ok t) ->
     Server.query_gemini sv paragraph question w
     = (Ok t,
        {| last_disease_query := last_disease_query w;
           calls := calls w ++
             [GeminiPost (gemini_url (Server.MODEL_NAME sv))
                (Some (Server.GEMINI_API_KEY sv)) (prompt_of paragraph question)] |})) /\
  (forall sv : Shri1.Services,
     Shri1.requests_post sv (gemini_url Shri1.MODEL_NAME)
       (Shri1.GEMINI_API_KEY sv) (prompt_of paragraph question)
     = Response status_code (Ok t) ->
     Shri1.query_gemini sv paragraph question w
     = (Ok t,
        {| last_disease_query := last_disease_query w;
           calls := calls w ++
             [GeminiPost (gemini_url Shri1.MODEL_NAME)
                (Shri1.GEMINI_API_KEY sv) (prompt_of paragraph question)] |})).
Proof.
  intros Hs. split.
  - intros sv Hk Hp. unfold Server.query_gemini, bind.
    apply truthy_iff in Hk. rewrite Hk. unfold try_except, bind.
    by rewrite (gemini_request_succeeds _ _ _ _ w _ _ Hp Hs).
  - intros sv Hp. unfold Shri1.query_gemini, try_except.
    by rewrite (gemini_request_succeeds _ _ _ _ w _ _ Hp Hs).
Qed.

(** The sample service answers 200 with its text. *)
Lemma query_gemini_returns_generated_witness :
  fst (Server.query_gemini (Sample.server [] (Sample.post_ok Sample.generated))
         None Sample.question Sample.fresh)
  = Ok "Diabetes symptoms include thirst and fatigue.".
Proof.
  refine (f_equal fst
            (proj1 (query_gemini_returns_generated None Sample.question Sample.fresh
                      200 Sample.generated _)
               (Sample.server [] (Sample.post_ok Sample.generated)) _ _)).
  - lia.
  - discriminate.
  - reflexivity.
Defined.

(** X9.  [server.py]: the fallback answer quotes the question after
    ["You asked: "], and it is the answer for no passage followed by the
    note on the referenced content exactly when a non-empty passage was
    given. *)
Theorem Server_fallback_quotes_question (paragraph : option string) (question : string) :
  occurs_in ("You asked: " +:+ question) (Server.safe_answer paragraph question) /\
  Server.safe_answer paragraph question
  = Server.safe_answer None question
      +:+ (match paragraph with
           | Some p => if truthy p then reference_note else EmptyString
           | None => EmptyString
           end).
Proof. apply Server_safe_answer_shape. Qed.


(** The generator only adds calls, and they are calls to a service. *)
Lemma query_gemini_calls (app : App) (paragraph : option string) (question : string)
    (w : World) :
  exists l, calls (snd (query_gemini app paragraph question w)) = calls w ++ l /\
            Forall service_call l.
Proof.
  destruct app as [sv | sv]; cbn [query_gemini].
  - unfold Server.query_gemini, bind.
    destruct (truthy (Server.GEMINI_API_KEY sv));
      [| exists []; split; [by rewrite app_nil_r | constructor]].
    unfold try_except, bind.
    pose proof (gemini_request_world (Server.requests_post sv) (Server.MODEL_NAME sv)
                  (Some (Server.GEMINI_API_KEY sv)) (prompt_of paragraph question) w) as H.
    destruct (gemini_request _ _ _ _ w) as [[t | e] w']; cbn [snd] in *; subst w';
      (eexists; split; [reflexivity | by repeat constructor]).
  - unfold Shri1.query_gemini, try_except.
    pose proof (gemini_request_world (Shri1.requests_post sv) Shri1.MODEL_NAME
                  (Shri1.GEMINI_API_KEY sv) (prompt_of paragraph question) w) as H.
    destruct (gemini_request _ _ _ _ w) as [[t | e] w']; cbn [snd] in *; subst w';
      (eexists; split; [reflexivity | by repeat constructor]).
Qed.

(** The translation step only adds calls, and they are calls to a
    service. *)
Lemma translate_step_calls (app : App) (answer target_lang : string) (w : World) :
  exists l, calls (snd (translate_step app answer target_lang w)) = calls w ++ l /\
            Forall service_call l.
Proof.
  destruct app as [sv | sv]; cbn [translate_step].
  - unfold Server.translate_step.
    destruct (Server.translator sv) as [tr |];
      [| exists []; split; [by rewrite app_nil_r | constructor]].
    destruct (_ && _); [| exists []; split; [by rewrite app_nil_r | constructor]].
    unfold try_except, call.
    destruct (tr answer target_lang);
      (eexists; split; [reflexivity | by repeat constructor]).
  - unfold Shri1.translate_step.
    destruct (negb _); [| exists []; split; [by rewrite app_nil_r | constructor]].
    unfold try_except, call.
    destruct (Shri1.translator sv answer target_lang);
      (eexists; split; [reflexivity | by repeat constructor]).
Qed.

(** X11.  The translation step asks the backend only when a translation
    is to be attempted ([server.py]: a backend is there and the language
    is neither empty nor [en]; [shri1.py]: the language is not [en], the
    empty one included); otherwise the answer passes through and nothing
    is called.  When the backend answers, its text is returned. *)
Theorem translate_step_otherwise (app : App) (answer target_lang : string) (w : World) :
  (~ translation_attempted app target_lang ->
   translate_step app answer target_lang w = (Ok answer, w)) /\
  (forall t,
     translation_attempted app target_lang ->
     translation_result app answer target_lang = Some (Ok t) ->
     translate_step app answer target_lang w
     = (Ok t,
        {| last_disease_query := last_disease_query w;
           calls := calls w ++ [TranslateCall answer target_lang] |})).
Proof.
  destruct app as [sv | sv];
    cbn [translation_attempted translation_result translate_step].
  - unfold Server.translate_step. split.
    + intros Hno. destruct (Server.translator sv) as [tr |]; [| done].
      destruct (truthy target_lang) eqn:Ht; [| done].
      destruct (String.eqb target_lang "en") eqn:He; [done |].
      exfalso. apply Hno. split; [by eexists |].
      split; [by apply truthy_iff | by apply String.eqb_neq].
    + intros t ([tr Htr] & Hne & Hen). rewrite Htr. cbn [fmap option_fmap option_map].
      intros [= Hok]. apply truthy_iff in Hne. rewrite Hne.
      apply String.eqb_neq in Hen. rewrite Hen. cbn [negb andb].
      unfold try_except, call. by rewrite Hok.
  - unfold Shri1.translate_step. split.
    + intros Hno. destruct (String.eqb target_lang "en") eqn:He; [done |].
      exfalso. apply Hno. by apply String.eqb_neq.
    + intros t Hen [= Hok]. apply String.eqb_neq in Hen. rewrite Hen. cbn [negb].
      unfold try_except, call. by rewrite Hok.
Qed.

(** An empty language: [server.py] passes the answer through, [shri1.py]
    asks its backend. *)
Lemma translate_step_otherwise_witness :
  translate_step (ServerPy (Sample.server [] Sample.post_500)) Sample.generated
    EmptyString Sample.fresh
  = (Ok Sample.generated, Sample.fresh) /\
  translate_step
    (Shri1Py {| Shri1.model := Sample.enc; Shri1.index := Sample.idx [];
                Shri1.translator := fun answer _ => Ok answer;
                Shri1.GEMINI_API_KEY := None;
                Shri1.requests_post := Sample.post_500 |})
    Sample.generated EmptyString Sample.fresh
  = (Ok Sample.generated,
     {| last_disease_query := {| lq_text := None; lq_name := None |};
        calls := [TranslateCall Sample.generated EmptyString] |}).
Proof.
  split.
  - refine (proj1 (translate_step_otherwise _ _ _ _) _).
    intros (_ & Hne & _). by apply Hne.
  - refine (proj2 (translate_step_otherwise _ _ _ _) _ _ _).
    + discriminate.
    + reflexivity.
Defined.

End MoreGenerator.

(** ** More on the [/chat] handler *)

Section MoreChat.

Import PyStr.

(** The retriever only adds calls, and they are calls to a service. *)
Lemma search_query_only_calls (app : App) (query : string) (threshold : Q) (w : World) :
  exists l, calls (snd (search_query_only app query threshold w)) = calls w ++ l /\
            Forall service_call l.
Proof.
  rewrite search_query_only_asks. eexists. split; [reflexivity |].
  destruct (encoder_answer app query) as [[v | e] |]; by repeat constructor.
Qed.

(** [server.py]: the path of a logged-in request with a question.  The
    handler asks the services for the answer and then runs the history
    insert of the user, the stripped question and that answer; it
    responds with the answer when the insert returns. *)
Lemma Server_chat_answer_path (sv : Server.Services) (hist : history_db)
    (req : Request) (w : World) (username : string) :
  session req !! "username" = Some username ->
  strip (default EmptyString (data req !! "query")) <> EmptyString ->
  exists answer l w3,
    calls w3 = calls w ++ l /\ Forall service_call l /\
    Server.chat sv hist req w
    = match Server.save_chat hist username
              (strip (default EmptyString (data req !! "query"))) answer w3 with
      | (Ok _, w4) => (Ok (jsonify_answer answer), w4)
      | (Raise e, w4) => (Raise e, w4)
      end.
Proof.
  intros Hu Hq. apply truthy_iff in Hq. unfold Server.chat. rewrite Hu, Hq. cbn [negb].
  set (query := strip (default EmptyString (data req !! "query"))).
  unfold bind at 1. unfold try_except at 1.
  destruct (search_query_only_calls (ServerPy sv) query threshold_default w)
    as (l1 & Hl1 & Hf1).
  cbn [search_query_only] in Hl1.
  destruct (Server.search_query_only sv query threshold_default w) as [r1 w1].
  cbn [snd] in Hl1.
  assert (Hgen : forall para w0, calls w0 = calls w ++ l1 ->
            exists answer l w3,
              calls w3 = calls w ++ l /\ Forall service_call l /\
              (let! answer :=
                 match para with
                 | Some p => if truthy p then Server.query_gemini sv (Some p) query
                             else Server.query_gemini sv None query
                 | None => Server.query_gemini sv None query
                 end in
               let! answer := Server.translate_step sv answer
                                (default "en" (data req !! "language")) in
               let! _ := Server.save_chat hist username query answer in
               ret (jsonify_answer answer)) w0
              = match Server.save_chat hist username query answer w3 with
                | (Ok _, w4) => (Ok (jsonify_answer answer), w4)
                | (Raise e, w4) => (Raise e, w4)
                end).
  { intros para w0 Hw0.
    assert (exists X, match para with
                      | Some p => if truthy p then Server.query_gemini sv (Some p) query
                                  else Server.query_gemini sv None query
                      | None => Server.query_gemini sv None query
                      end = Server.query_gemini sv X query) as [X ->].
    { destruct para as [p |]; [destruct (truthy p) |]; by eexists. }
    unfold bind at 1.
    destruct (query_gemini_returns (ServerPy sv) X query w0) as (t & w2 & Hg & _).
    destruct (query_gemini_calls (ServerPy sv) X query w0) as (l2 & Hl2 & Hf2).
    cbn [query_gemini] in Hg, Hl2. rewrite Hg in Hl2 |- *. cbn [snd] in Hl2.
    unfold bind at 1.
    destruct (translate_step_returns (ServerPy sv) t
                (default "en" (data req !! "language")) w2) as (out & w3 & Ht & _).
    destruct (translate_step_calls (ServerPy sv) t
                (default "en" (data req !! "language")) w2) as (l3 & Hl3 & Hf3).
    cbn [translate_step] in Ht, Hl3. rewrite Ht in Hl3 |- *. cbn [snd] in Hl3.
    exists out, (l1 ++ l2 ++ l3), w3. split; [| split].
    - rewrite Hl3, Hl2, Hw0. by rewrite <- !app_assoc.
    - by repeat apply Forall_app_2.
    - unfold bind, ret.
      by destruct (Server.save_chat hist username query out w3) as [[[] | e] w4]. }
  destruct r1 as [para | e]; by apply Hgen.
Qed.

(** The calls of the history insert: the connect comes first; the insert
    is issued exactly when the connect and the cursor succeed, with the
    values it was given; with these and the insert succeeding, the
    commit and the close follow and nothing is rolled back. *)
Lemma save_chat_calls (hist : history_db) (username message response : string)
    (w : World) :
  exists l,
    calls (snd (Server.save_chat hist username message response w))
    = calls w ++ DbConnect :: l /\
    Forall (fun ev => ~ service_call ev) l /\
    (forall u m r, DbInsert u m r ∈ l ->
       hist AtConnect = None /\ hist AtCursor = None /\
       u = username /\ m = message /\ r = response) /\
    (hist AtConnect = None -> hist AtCursor = None ->
     DbInsert username message response ∈ l) /\
    (hist AtConnect = None -> hist AtCursor = None -> hist AtInsert = None ->
     hist AtCommit = None ->
     l = [DbCursor; DbInsert username message response; DbCommit; DbClose]).
Proof.
  unfold Server.save_chat, try_finally, try_except, bind, db_call, call.
  cbn [last_disease_query calls].
  destruct (hist AtConnect) as [e0 |]; cbn [last_disease_query calls snd].
  - exists []. split; [done |]. split; [constructor |].
    split; [intros u m r Hin; by apply elem_of_nil in Hin |]. by split.
  - destruct (hist AtCursor), (hist AtInsert), (hist AtCommit), (hist AtRollback),
      (hist AtClose);
      cbn [last_disease_query calls snd];
      rewrite <- ?app_assoc; (eexists; split; [reflexivity |]);
      (split; [repeat constructor; by intros [] |]);
      (split; [intros u m r Hin;
               repeat (apply elem_of_cons in Hin as [Hin | Hin];
                       [try discriminate Hin; try (by injection Hin as -> -> ->) |]);
               by apply elem_of_nil in Hin |]);
      (split; [intros; try discriminate; by repeat constructor |]);
      intros; try discriminate; reflexivity.
Qed.

(** X12.  [server.py], for a request with an ASCII question: the handler
    leaves the record of calls untouched exactly when no user is logged
    in or the question is blank once stripped; such a request gets the
    fixed message and changes nothing. *)
Theorem Server_chat_contacts_iff (sv : Server.Services) (hist : history_db)
    (req : Request) (w : World) :
  ascii_text (default EmptyString (data req !! "query")) ->
  (calls (snd (Server.chat sv hist req w)) = calls w <->
   session req !! "username" = None \/
   strip (default EmptyString (data req !! "query")) = EmptyString) /\
  (session req !! "username" = None ->
   Server.chat sv hist req w = (Ok (jsonify_answer "⚠ Please login first."), w)) /\
  (is_Some (session req !! "username") ->
   strip (default EmptyString (data req !! "query")) = EmptyString ->
   Server.chat sv hist req w
   = (Ok (jsonify_answer "⚠ Please enter a valid question."), w)).
Proof.
  intros _.
  assert (Hlogin : session req !! "username" = None ->
            Server.chat sv hist req w
            = (Ok (jsonify_answer "⚠ Please login first."), w)).
  { intros Hu. unfold Server.chat. by rewrite Hu. }
  split; [| split; [exact Hlogin | apply Server_chat_blank_question]].
  split.
  - intros Hsame. destruct (session req !! "username") as [u |] eqn:Hu; [| by left].
    right. destruct (decide (strip (default EmptyString (data req !! "query"))
                             = EmptyString)) as [| Hq]; [done |].
    exfalso.
    destruct (Server_chat_answer_path sv hist req w u Hu Hq)
      as (answer & l & w3 & Hl & _ & Hrun).
    destruct (save_chat_calls hist u
                (strip (default EmptyString (data req !! "query"))) answer w3)
      as (l' & Hl' & _).
    rewrite Hrun in Hsame.
    destruct (Server.save_chat hist u _ answer w3) as [[[] | e] w4];
      cbn [snd] in Hsame, Hl'; rewrite Hl', Hl, <- app_assoc in Hsame;
      rewrite <- (app_nil_r (calls w)) in Hsame at 2;
      apply app_inv_head in Hsame; by destruct l.
  - intros [Hu | Hq].
    + by rewrite Hlogin.
    + destruct (session req !! "username") as [u |] eqn:Hu; [| by rewrite Hlogin].
      rewrite Server_chat_blank_question; [done | by rewrite Hu | done].
Qed.

(** A request without a session. *)
Lemma Server_chat_contacts_iff_witness :
  Server.chat (Sample.server [Sample.m_diabetes] (Sample.post_ok Sample.generated))
    Sample.db_up
    {| session := ∅; data := {[ "query" := Sample.question ]} |} Sample.fresh
  = (Ok (jsonify_answer "⚠ Please login first."), Sample.fresh).
Proof.
  refine (proj1 (proj2 (Server_chat_contacts_iff _ _ _ _ _)) _).
  - by vm_compute.
  - reflexivity.
Defined.





(** X15.  [shri1.py]: when the retriever raises on a question that is
    not empty, the handler answers with the internal-error message; the
    generation service and the translator are not called. *)
Theorem Shri1_chat_retriever_failure (sv : Shri1.Services) (req : Request)
    (w w1 : World) (e : exn) :
  default EmptyString (data req !! "query") <> EmptyString ->
  Shri1.search_query_only sv (default EmptyString (data req !! "query"))
    threshold_default w = (Raise e, w1) ->
  Shri1.chat sv req w
  = (Ok (jsonify_answer "‚ö† An internal error occurred. Please try again."), w1).
Proof.
  intros Hq Hs. apply truthy_iff in Hq.
  unfold Shri1.chat, try_except. rewrite Hq. cbn [negb].
  unfold bind at 1. by rewrite Hs.
Qed.

(** The encoder of the sample is down. *)
Lemma Shri1_chat_retriever_failure_witness :
  Shri1.chat (Sample.shri1 Sample.enc_down (Sample.idx []) (Sample.post_ok Sample.generated))
    (Sample.request "What is flu?" "en") Sample.fresh
  = (Ok (jsonify_answer "‚ö† An internal error occurred. Please try again."),
     {| last_disease_query := {| lq_text := None; lq_name := None |};
        calls := [EncodeCall "What is flu?"] |}).
Proof.
  apply (Shri1_chat_retriever_failure
           (Sample.shri1 Sample.enc_down (Sample.idx []) (Sample.post_ok Sample.generated))
           (Sample.request "What is flu?" "en") Sample.fresh _ (PyError "EncodingError")).
  - by vm_compute.
  - by vm_compute.
Defined.

End MoreChat.

(** ** [chunk_text] of [src/new.py] *)

Section Chunks.

Import PyStr Ingest.

Lemma map_lookup {A B : Type} (f : A -> B) (l : list A) (i : nat) :
  map f l !! i = f <$> (l !! i).
Proof.
  revert i; induction l as [|x l IH]; intros [|i]; simpl; by try apply IH.
Qed.

(** With a positive step and enough fuel, [range_from] lists the values
    [i + k * step] below [stop]. *)
Lemma range_from_lookup (fuel : nat) (i stop step : Z) (k : nat) :
  (0 < step)%Z -> (stop - i <= Z.of_nat fuel)%Z ->
  range_from fuel i stop step !! k
  = if (i + Z.of_nat k * step <? stop)%Z then Some (i + Z.of_nat k * step)%Z else None.
Proof.
  intros Hstep. revert i k; induction fuel as [|fuel IH]; intros i k Hfuel.
  - simpl. destruct (Z.ltb_spec (i + Z.of_nat k * step) stop); [nia | done].
  - cbn [range_from]. destruct (Z.ltb_spec i stop) as [Hi | Hi].
    + destruct k as [|k].
      * simpl. rewrite Z.add_0_r. by destruct (Z.ltb_spec i stop); [| lia].
      * cbn [lookup list_lookup]. rewrite IH by lia.
        replace (i + step + Z.of_nat k * step)%Z with (i + Z.of_nat (S k) * step)%Z by lia.
        done.
    + destruct (Z.ltb_spec (i + Z.of_nat k * step) stop); [nia | done].
Qed.

(** For bounds that are not negative a slice is a [take] of a [drop]. *)
Lemma py_slice_nonneg {A : Type} (l : list A) (lo len : Z) :
  (0 <= lo)%Z -> (0 <= len)%Z ->
  py_slice l lo (lo + len) = take (Z.to_nat len) (drop (Z.to_nat lo) l).
Proof.
  intros Hlo Hlen. unfold py_slice, slice_bound.
  destruct (Z.ltb_spec lo 0); [lia |]. destruct (Z.ltb_spec (lo + len) 0); [lia |].
  destruct (Z.le_gt_cases (Z.of_nat (length l)) lo) as [Hge | Hlt].
  - rewrite (drop_ge l (Z.to_nat (Z.min lo (Z.of_nat (length l))))) by lia.
    rewrite (drop_ge l (Z.to_nat lo)) by lia. by rewrite !take_nil.
  - replace (Z.min lo (Z.of_nat (length l))) with lo by lia.
    destruct (Z.le_gt_cases (lo + len) (Z.of_nat (length l))) as [Hin | Hout].
    + replace (Z.min (lo + len) (Z.of_nat (length l))) with (lo + len)%Z by lia.
      f_equal. lia.
    + replace (Z.min (lo + len) (Z.of_nat (length l))) with (Z.of_nat (length l)) by lia.
      rewrite !take_ge; [done | rewrite length_drop; lia | rewrite length_drop; lia].
Qed.

(** A slice is a stretch of the list, so it keeps what holds of all its
    items. *)
Lemma py_slice_Forall {A : Type} (P : A -> Prop) (l : list A) (lo hi : Z) :
  Forall P l -> Forall P (py_slice l lo hi).
Proof. intros H. unfold py_slice. by apply Forall_take, Forall_drop. Qed.

(** X16.  [chunk_text] with [chunk_size = overlap] raises the
    [ValueError] of a zero range step; with [chunk_size < overlap] it
    returns no passage at all, whatever the text; and a text without
    words gives no passage. *)
Theorem chunk_text_edges (text : string) (chunk_size overlap : Z) :
  (chunk_size = overlap ->
   chunk_text text chunk_size overlap
   = Raise (PyError "ValueError: range() arg 3 must not be zero")) /\
  ((chunk_size < overlap)%Z -> chunk_text text chunk_size overlap = Ok []) /\
  (split text = [] -> chunk_size <> overlap -> chunk_text text chunk_size overlap = Ok []).
Proof.
  unfold chunk_text, range_0. split; [| split].
  - intros ->. by rewrite Z.sub_diag.
  - intros Hlt. destruct (Z.eqb_spec (chunk_size - overlap) 0); [lia |].
    destruct (Z.ltb_spec (chunk_size - overlap) 0); [done | lia].
  - intros -> Hne. destruct (Z.eqb_spec (chunk_size - overlap) 0); [lia |].
    by destruct (chunk_size - overlap <? 0)%Z.
Qed.

(** A page of seven words, cut with equal and with crossed sizes. *)
Lemma chunk_text_edges_witness :
  chunk_text "a b c d e f g" 3 3
  = Raise (PyError "ValueError: range() arg 3 must not be zero") /\
  chunk_text "a b c d e f g" 3 5 = Ok [] /\
  chunk_text "   " 3 1 = Ok [].
Proof.
  split; [| split].
  - refine (proj1 (chunk_text_edges _ 3 3) _). reflexivity.
  - refine (proj1 (proj2 (chunk_text_edges _ 3 5)) _). lia.
  - refine (proj2 (proj2 (chunk_text_edges "   " 3 1)) _ _); [reflexivity | lia].
Defined.

(** The chunks for a positive step, one by one. *)
Lemma chunk_text_lookup (text : string) (chunk_size overlap : Z) :
  (overlap < chunk_size)%Z ->
  exists chunks,
    chunk_text text chunk_size overlap = Ok chunks /\
    forall k : nat,
      chunks !! k
      = if (Z.of_nat k * (chunk_size - overlap) <? Z.of_nat (length (split text)))%Z
        then Some (join " " (py_slice (split text)
                               (Z.of_nat k * (chunk_size - overlap))
                               (Z.of_nat k * (chunk_size - overlap) + chunk_size)))
        else None.
Proof.
  intros Hstep. unfold chunk_text, range_0.
  destruct (Z.eqb_spec (chunk_size - overlap) 0); [lia |].
  destruct (Z.ltb_spec (chunk_size - overlap) 0); [lia |].
  eexists. split; [reflexivity |]. intros k.
  rewrite map_lookup, range_from_lookup by lia. rewrite Z.add_0_l.
  by destruct (_ <? _)%Z.
Qed.

(** X17.  With [overlap < chunk_size] an ASCII text of [n] words is cut into
    the chunks that start at the words [0, step, 2 step, ...] below [n],
    [step = chunk_size - overlap]: there are [ceil (n / step)] of them,
    and chunk [k] joins the slice
    [words[k step : k step + chunk_size]] with single blanks. *)
Theorem chunk_text_chunks (text : string) (chunk_size overlap : Z) :
  ascii_text text ->
  (overlap < chunk_size)%Z ->
  exists chunks,
    chunk_text text chunk_size overlap = Ok chunks /\
    Z.of_nat (length chunks)
    = ((Z.of_nat (length (split text)) + (chunk_size - overlap) - 1)
         / (chunk_size - overlap))%Z /\
    forall k c,
      chunks !! k = Some c ->
      c = join " " (py_slice (split text)
                      (Z.of_nat k * (chunk_size - overlap))
                      (Z.of_nat k * (chunk_size - overlap) + chunk_size)).
Proof.
  intros _ Hstep.
  destruct (chunk_text_lookup text chunk_size overlap Hstep) as (chunks & Hrun & Hk).
  exists chunks. split; [done |]. split.
  - set (n := Z.of_nat (length (split text))) in *.
    set (step := (chunk_size - overlap)%Z) in *.
    assert (Hhi : (n <= Z.of_nat (length chunks) * step)%Z).
    { pose proof (lookup_ge_None_2 chunks (length chunks) (le_n _)) as Hnone.
      rewrite Hk in Hnone. destruct (Z.ltb_spec (Z.of_nat (length chunks) * step) n);
        [done | lia]. }
    assert (Hlo : (0 < Z.of_nat (length chunks) ->
                   (Z.of_nat (length chunks) - 1) * step < n)%Z).
    { intros Hpos. destruct (length chunks) as [|L] eqn:HL; [lia |].
      destruct (lookup_lt_is_Some_2 chunks L) as [c Hc]; [lia |].
      rewrite Hk in Hc.
      destruct (Z.ltb_spec (Z.of_nat L * step) n); [lia | done]. }
    apply (Z.div_unique _ _ _
      (n + step - 1 - step * Z.of_nat (length chunks))%Z); [| lia].
    left. assert (0 <= n)%Z by (subst n; lia).
    destruct (Z.eq_dec (Z.of_nat (length chunks)) 0%Z) as [Hz | Hnz].
    + rewrite Hz in *. lia.
    + assert (Hlo' := Hlo ltac:(lia)). lia.
  - intros k c Hc. rewrite Hk in Hc. destruct (_ <? _)%Z; [| done].
    by injection Hc as <-.
Qed.

(** Seven words, three to a chunk, one shared. *)
Lemma chunk_text_chunks_witness :
  exists chunks,
    chunk_text "a b c d e f g" 3 1 = Ok chunks /\
    Z.of_nat (length chunks) = ((7 + (3 - 1) - 1) / (3 - 1))%Z.
Proof.
  destruct (chunk_text_chunks "a b c d e f g" 3 1) as (chunks & Hrun & Hlen & _);
    [reflexivity | lia |].
  exists chunks. split; [exact Hrun | exact Hlen].
Defined.

Lemma split_from_word (cur w s : string) :
  Forall (fun c => is_space c = false) (list_ascii_of_string w) ->
  split_from cur (w +:+ s) = split_from (cur +:+ w) s.
Proof.
  revert cur; induction w as [|c w IH]; intros cur Hw.
  - by rewrite append_empty_r.
  - simpl in Hw. inversion Hw as [|? ? Hc Hw']; subst.
    rewrite append_cons. cbn [split_from]. rewrite Hc, IH by done.
    by rewrite append_assoc, append_cons.
Qed.

(** Joining words with blanks and splitting again gives the words. *)
Lemma split_join (ws : list string) :
  Forall is_word ws -> split (join " " ws) = ws.
Proof.
  unfold split. induction ws as [|w ws IH]; [done |].
  intros H. inversion H as [|? ? [Hne Hw] Hws]; subst.
  cbn [join]. destruct ws as [|w' ws].
  - rewrite <- (append_empty_r w) at 1. rewrite split_from_word by done.
    simpl. by destruct w.
  - rewrite split_from_word by done. change (" " +:+ ?x) with (String " " x).
    cbn [split_from]. replace (is_space " ") with true by reflexivity.
    rewrite (IH Hws). simpl. by destruct w.
Qed.

(** Splitting a chunk at whitespace gives back the slice of words it
    was joined from. *)
Lemma chunk_text_split_back (text : string) (chunk_size overlap : Z)
    (chunks : list string) (k : nat) (c : string) :
  (overlap < chunk_size)%Z ->
  chunk_text text chunk_size overlap = Ok chunks ->
  chunks !! k = Some c ->
  split c = py_slice (split text)
              (Z.of_nat k * (chunk_size - overlap))
              (Z.of_nat k * (chunk_size - overlap) + chunk_size).
Proof.
  intros Hstep Hrun Hc.
  destruct (chunk_text_lookup text chunk_size overlap Hstep) as (chunks' & Hrun' & Hk).
  rewrite Hrun in Hrun'. injection Hrun' as <-.
  rewrite Hk in Hc. destruct (_ <? _)%Z; [| done]. injection Hc as <-.
  apply split_join, py_slice_Forall, split_words.
Qed.

(** X18.  Round trip, for an ASCII text: with [overlap < chunk_size],
    splitting chunk [k] at whitespace gives back exactly the slice of
    words it was joined from. *)
Theorem chunk_text_words (text : string) (chunk_size overlap : Z) (chunks : list string)
    (k : nat) (c : string) :
  ascii_text text ->
  (overlap < chunk_size)%Z ->
  chunk_text text chunk_size overlap = Ok chunks ->
  chunks !! k = Some c ->
  split c = py_slice (split text)
              (Z.of_nat k * (chunk_size - overlap))
              (Z.of_nat k * (chunk_size - overlap) + chunk_size).
Proof. intros _. apply chunk_text_split_back. Qed.

Lemma chunk_text_words_witness :
  split "c d e" = py_slice (split "a b c d e f g") (1 * (3 - 1)) (1 * (3 - 1) + 3).
Proof.
  apply (chunk_text_words "a b c d e f g" 3 1 ["a b c"; "c d e"; "e f g"; "g"] 1%nat "c d e");
    [reflexivity | lia | reflexivity | reflexivity].
Defined.


(** X19.  With [0 <= overlap < chunk_size] no word of an ASCII text is
    lost: every word of the text is a word of some chunk. *)
Theorem chunk_text_covers (text : string) (chunk_size overlap : Z)
    (chunks : list string) (j : nat) (w : string) :
  ascii_text text ->
  (0 <= overlap < chunk_size)%Z ->
  chunk_text text chunk_size overlap = Ok chunks ->
  split text !! j = Some w ->
  exists k c, chunks !! k = Some c /\ w ∈ split c.
Proof.
  intros _ [Hov Hstep] Hrun Hj.
  destruct (chunk_text_lookup text chunk_size overlap Hstep) as (chunks' & Hrun' & Hk).
  rewrite Hrun in Hrun'. injection Hrun' as <-.
  set (step := (chunk_size - overlap)%Z) in *.
  assert (Hjn : (Z.of_nat j < Z.of_nat (length (split text)))%Z).
  { apply lookup_lt_Some in Hj. lia. }
  assert (Hq : (0 <= Z.of_nat j / step)%Z) by (apply Z.div_pos; lia).
  pose proof (Z.div_mod (Z.of_nat j) step ltac:(lia)) as Hdm.
  pose proof (Z.mod_pos_bound (Z.of_nat j) step ltac:(lia)) as Hmod.
  exists (Z.to_nat (Z.of_nat j / step)). eexists. split.
  - rewrite Hk, Z2Nat.id by done.
    destruct (Z.ltb_spec (Z.of_nat j / step * step) (Z.of_nat (length (split text))));
      [reflexivity | lia].
  - assert (Hprod : (0 <= Z.of_nat j / step * step)%Z) by nia.
    rewrite split_join by apply py_slice_Forall, split_words.
    rewrite py_slice_nonneg by lia.
    apply (list_elem_of_lookup_2 _ (j - Z.to_nat (Z.of_nat j / step * step))).
    rewrite lookup_take_lt by lia. rewrite lookup_drop. rewrite <- Hj. f_equal. lia.
Qed.

Lemma chunk_text_covers_witness :
  exists k c, ["a b c"; "c d e"; "e f g"; "g"] !! k = Some c /\ "f" ∈ split c.
Proof.
  apply (chunk_text_covers "a b c d e f g" 3 1 _ 5%nat "f");
    [reflexivity | lia | reflexivity | reflexivity].
Defined.

Lemma rstrip_nospace (w : string) :
  Forall (fun c => is_space c = false) (list_ascii_of_string w) -> rstrip w = w.
Proof.
  induction w as [|c w IH]; [done |]. simpl.
  intros H. inversion H as [|? ? Hc Hw]; subst.
  rewrite (IH Hw). destruct w; [by rewrite Hc | done].
Qed.

Lemma rstrip_append_word (a w : string) : is_word w -> rstrip (a +:+ w) = a +:+ w.
Proof.
  intros [Hne Hw]. induction a as [|x a IH]; [by apply rstrip_nospace |].
  rewrite append_cons. simpl. rewrite IH.
  destruct (a +:+ w) eqn:Ha; [| done].
  destruct a; [by destruct w | discriminate].
Qed.

Lemma join_snoc (sep : string) (ws : list string) (w : string) :
  exists a, join sep (ws ++ [w]) = a +:+ w.
Proof.
  induction ws as [|x ws [a IH]]; [by exists EmptyString |].
  change ((x :: ws) ++ [w]) with (x :: (ws ++ [w])). cbn [join].
  destruct (ws ++ [w]) as [|y l] eqn:Hl; [by destruct ws |].
  rewrite IH. exists (x +:+ sep +:+ a). by rewrite !append_assoc.
Qed.

(** Words joined with blanks have no whitespace at either end. *)
Lemma join_words_trimmed (ws : list string) :
  ws <> [] -> Forall is_word ws ->
  join " " ws <> EmptyString /\ strip (join " " ws) = join " " ws.
Proof.
  intros Hne Hws.
  assert (Hhead : exists c r, join " " ws = String c r /\ is_space c = false).
  { destruct ws as [|w rest]; [done |]. inversion Hws as [|? ? [Hw Hc] _]; subst.
    destruct w as [|c w']; [done |]. simpl in Hc. inversion Hc; subst.
    cbn [join]. destruct rest; by eexists _, _. }
  destruct Hhead as (c & r & Hj & Hc). split; [by rewrite Hj |].
  unfold strip. rewrite lstrip_fixed by (by rewrite Hj).
  destruct (exists_last Hne) as (ws' & w & ->).
  destruct (join_snoc " " ws' w) as [a ->].
  apply rstrip_append_word. apply Forall_app in Hws as [_ Hw]. by inversion Hw.
Qed.

(** X20.  With [0 < chunk_size] and [overlap < chunk_size] every chunk is
    a non-empty text without whitespace at its ends, so the retriever's
    [.strip()] leaves a stored chunk as it is: the passage text of a
    match that carries the chunk is the chunk. *)
Theorem chunk_text_stored_verbatim (text : string) (chunk_size overlap : Z)
    (chunks : list string) (c : string) :
  (0 < chunk_size)%Z -> (overlap < chunk_size)%Z ->
  chunk_text text chunk_size overlap = Ok chunks ->
  c ∈ chunks ->
  c <> EmptyString /\ strip c = c /\
  forall score, passage_text (MkMatch score (Some (Metadata (Some c)))) = c.
Proof.
  intros Hcs Hstep Hrun Hc.
  destruct (chunk_text_lookup text chunk_size overlap Hstep) as (chunks' & Hrun' & Hk).
  rewrite Hrun in Hrun'. injection Hrun' as <-.
  apply list_elem_of_lookup_1 in Hc as [k Hc]. rewrite Hk in Hc.
  destruct (Z.ltb_spec (Z.of_nat k * (chunk_size - overlap))
              (Z.of_nat (length (split text)))) as [Hlt |]; [| done].
  injection Hc as <-.
  assert (H : join " " (py_slice (split text) (Z.of_nat k * (chunk_size - overlap))
                          (Z.of_nat k * (chunk_size - overlap) + chunk_size))
              <> EmptyString /\
              strip (join " " (py_slice (split text)
                                 (Z.of_nat k * (chunk_size - overlap))
                                 (Z.of_nat k * (chunk_size - overlap) + chunk_size)))
              = join " " (py_slice (split text) (Z.of_nat k * (chunk_size - overlap))
                            (Z.of_nat k * (chunk_size - overlap) + chunk_size))).
  { apply join_words_trimmed; [| apply py_slice_Forall, split_words].
    rewrite py_slice_nonneg by nia. intros Hnil.
    apply (f_equal length) in Hnil. rewrite length_take, length_drop in Hnil.
    simpl in Hnil. nia. }
  destruct H as [Hne Hs]. split; [done |]. split; [done |].
  intros score. exact Hs.
Qed.

Lemma chunk_text_stored_verbatim_witness :
  "c d e" <> EmptyString /\ strip "c d e" = "c d e" /\
  forall score, passage_text (MkMatch score (Some (Metadata (Some "c d e")))) = "c d e".
Proof.
  apply (chunk_text_stored_verbatim "a b c d e f g" 3 1 ["a b c"; "c d e"; "e f g"; "g"]);
    [lia | lia | reflexivity | repeat constructor].
Defined.

(** X21.  With [0 <= overlap < chunk_size] consecutive chunks share their
    border: what is left of chunk [k] after its first [step] words is
    what chunk [k + 1] begins with, at most [overlap] words. *)
Theorem chunk_text_overlap (text : string) (chunk_size overlap : Z)
    (chunks : list string) (k : nat) (c c' : string) :
  (0 <= overlap < chunk_size)%Z ->
  chunk_text text chunk_size overlap = Ok chunks ->
  chunks !! k = Some c ->
  chunks !! S k = Some c' ->
  drop (Z.to_nat (chunk_size - overlap)) (split c) = take (Z.to_nat overlap) (split c').
Proof.
  intros [Hov Hstep] Hrun Hc Hc'.
  rewrite (chunk_text_split_back _ _ _ _ _ _ Hstep Hrun Hc).
  rewrite (chunk_text_split_back _ _ _ _ _ _ Hstep Hrun Hc').
  set (step := (chunk_size - overlap)%Z) in *.
  rewrite !py_slice_nonneg by nia.
  replace (Z.of_nat (S k) * step)%Z with (Z.of_nat k * step + step)%Z by lia.
  rewrite Z2Nat.inj_add by nia. rewrite <- drop_drop.
  rewrite take_take, Nat.min_l by lia.
  rewrite (take_drop_commute (drop (Z.to_nat (Z.of_nat k * step)) (split text))
             (Z.to_nat overlap) (Z.to_nat step)).
  do 2 f_equal. subst step. lia.
Qed.

Lemma chunk_text_overlap_witness :
  drop (Z.to_nat (3 - 1)) (split "a b c") = take (Z.to_nat 1) (split "c d e").
Proof.
  apply (chunk_text_overlap "a b c d e f g" 3 1 ["a b c"; "c d e"; "e f g"; "g"] 0%nat);
    [lia | reflexivity | reflexivity | reflexivity].
Defined.

End Chunks.

(** ** [draw_wrapped_text] of [src/server.py] *)

Section Wrapping.

Import PyStr Pdf.

Lemma str_take_drop (n : nat) (s : string) : str_take n s +:+ str_drop n s = s.
Proof.
  revert s; induction n as [|n IH]; intros [|c s]; try done.
  cbn [str_take str_drop]. by rewrite append_cons, IH.
Qed.

Lemma length_str_take (n : nat) (s : string) :
  String.length (str_take n s) = Nat.min n (String.length s).
Proof.
  revert s; induction n as [|n IH]; intros [|c s]; try done.
  cbn [str_take String.length]. by rewrite IH.
Qed.

Lemma length_str_drop (n : nat) (s : string) :
  String.length (str_drop n s) = (String.length s - n)%nat.
Proof.
  revert s; induction n as [|n IH]; intros [|c s]; try done.
  cbn [str_drop String.length]. by rewrite IH.
Qed.

Lemma str_take_nonempty (n : nat) (s : string) :
  s <> EmptyString -> str_take (S n) s <> EmptyString.
Proof. by destruct s. Qed.

(** Cutting a paragraph loses nothing, given fuel for its length. *)
Lemma cut_paragraph_spec (fuel : nat) (paragraph : string) :
  (String.length paragraph <= fuel)%nat ->
  concat_strings (cut_paragraph fuel paragraph) = paragraph /\
  Forall (fun line => line <> EmptyString /\ (String.length line <= 95)%nat)
         (cut_paragraph fuel paragraph).
Proof.
  revert paragraph; induction fuel as [|fuel IH]; intros paragraph Hlen.
  - destruct paragraph; [by split | simpl in Hlen; lia].
  - cbn [cut_paragraph]. destruct (truthy paragraph) eqn:Ht.
    + apply truthy_iff in Ht.
      destruct (IH (str_drop 95 paragraph)) as [Hc Hf].
      { rewrite length_str_drop. destruct paragraph; [done | simpl in *; lia]. }
      split.
      * cbn [concat_strings fold_right]. fold (concat_strings (cut_paragraph fuel
                                                 (str_drop 95 paragraph))).
        rewrite Hc. apply str_take_drop.
      * constructor; [| done]. split; [by apply str_take_nonempty |].
        rewrite length_str_take. lia.
    + destruct paragraph; [by split | done].
Qed.

Lemma split_on_concat (sep : ascii) (cur s : string) :
  concat_strings (split_on sep cur s) = cur +:+ remove_char sep s.
Proof.
  revert cur; induction s as [|c s IH]; intros cur.
  - simpl. by rewrite append_empty_r.
  - cbn [split_on remove_char]. destruct (Ascii.eqb c sep).
    + cbn [concat_strings fold_right]. fold (concat_strings (split_on sep EmptyString s)).
      by rewrite IH.
    + rewrite IH. by rewrite append_assoc, append_cons.
Qed.

Lemma concat_strings_app (a b : list string) :
  concat_strings (a ++ b) = concat_strings a +:+ concat_strings b.
Proof.
  induction a as [|x a IH]; [done |].
  cbn [app concat_strings fold_right]. fold (concat_strings (a ++ b)).
  fold (concat_strings a). by rewrite IH, append_assoc.
Qed.

(** X22.  The lines that [draw_wrapped_text] draws for an ASCII text
    (where a slice of 95 characters is one of 95 bytes of the embedded
    string) hold, in order, exactly the characters of the text without
    its line feeds; no line is empty (blank lines of the text are
    dropped) and none is longer than 95 characters. *)
Theorem wrapped_lines_content (text : string) :
  ascii_text text ->
  concat_strings (wrapped_lines text) = remove_char (ascii_of_nat 10) text /\
  Forall (fun line => line <> EmptyString /\ (String.length line <= 95)%nat)
         (wrapped_lines text).
Proof.
  intros _. unfold wrapped_lines.
  assert (Hps : forall ps : list string,
            concat_strings
              (concat (map (fun paragraph =>
                              cut_paragraph (String.length paragraph) paragraph) ps))
            = concat_strings ps /\
            Forall (fun line => line <> EmptyString /\ (String.length line <= 95)%nat)
              (concat (map (fun paragraph =>
                              cut_paragraph (String.length paragraph) paragraph) ps))).
  { induction ps as [|p ps [IHc IHf]]; [by split |].
    cbn [map concat].
    destruct (cut_paragraph_spec (String.length p) p (le_n _)) as [Hc Hf].
    split; [| by apply Forall_app].
    rewrite concat_strings_app, Hc, IHc. done. }
  destruct (Hps (split_on (ascii_of_nat 10) EmptyString text)) as [Hc Hf].
  split; [| done]. rewrite Hc. apply split_on_concat.
Qed.

(** Two paragraphs with a blank line between them. *)
Lemma wrapped_lines_content_witness :
  concat_strings (wrapped_lines ("ab" +:+ LF +:+ LF +:+ "c")) = "abc" /\
  Forall (fun line => line <> EmptyString /\ (String.length line <= 95)%nat)
         (wrapped_lines ("ab" +:+ LF +:+ LF +:+ "c")).
Proof.
  apply (wrapped_lines_content ("ab" +:+ LF +:+ LF +:+ "c")). reflexivity.
Defined.




End Wrapping.

(** ** The account and history routes *)

Section AccountRoutes.

Import PyStr Accounts.

(** Unfolds a handler and follows every outcome of its database calls. *)
Ltac walk be :=
  repeat (cbv beta iota delta [guarded h_finally h_try_except hbind hret rollback_if
                                 flash set_username db];
          cbn [site_session flashed db_calls fst snd];
          try match goal with
              | |- context [match db_fails be ?op with _ => _ end] =>
                  destruct (db_fails be op) eqn:?
              | |- context [match db_user be ?op with _ => _ end] =>
                  destruct (db_user be op) eqn:?
              | |- context [if check_password_hash be ?h ?p then _ else _] =>
                  destruct (check_password_hash be h p) eqn:?
              end).

(** Membership in the record of calls, call by call. *)
Ltac split_calls H :=
  rewrite ?elem_of_app, ?list_elem_of_singleton in H;
  repeat match type of H with
         | _ \/ _ => destruct H as [H | H]
         end;
  try discriminate H.

(** X24.  The dashboard, the password change, the history, the chat page
    and the clearing of the history answer a session without a user name
    with the redirect to [/login]; they neither touch the database nor
    flash a message.  That is the state [logout] leaves behind. *)
Theorem protected_routes_need_login (be : Backend) (route : protected_route) (s : Site) :
  (site_session s !! "username" = None ->
   serve be route s = (Ok (Redirect "/login"), s)) /\
  serve be route (snd (logout s)) = (Ok (Redirect "/login"), snd (logout s)).
Proof.
  assert (Hgate : forall s0, site_session s0 !! "username" = None ->
            serve be route s0 = (Ok (Redirect "/login"), s0)).
  { intros s0 Hs0. destruct route; cbn [serve];
      unfold dashboard, change_password, history, chatpage, clear_history, logged_in;
      by rewrite Hs0. }
  split; [apply Hgate |]. apply Hgate.
  unfold logout, hbind, pop_username, hret. cbn [snd site_session].
  apply lookup_delete_eq.
Qed.

(** A fresh visitor asks for the history. *)
Lemma protected_routes_need_login_witness :
  serve sample_backend ToHistory empty_site = (Ok (Redirect "/login"), empty_site).
Proof.
  refine (proj1 (protected_routes_need_login sample_backend ToHistory empty_site) _).
  reflexivity.
Defined.

(** X25.  For a form whose user name is ASCII, [login] changes the
    session only on one path: the request is a POST with a password, the database returned a user for the stripped
    user name, and [check_password_hash] accepted the password against
    the stored hash; the session then carries the user name of that row.
    On every other path, a failing database included, the session is
    left as it was. *)
Theorem login_grants_only_verified (be : Backend) (post : bool)
    (form : gmap string string) (s : Site) :
  ascii_text (default EmptyString (form !! "username")) ->
  site_session (snd (login be post form s)) = site_session s \/
  exists user,
    post = true /\
    default EmptyString (form !! "password") <> EmptyString /\
    db_user be (SelectUserByName (strip (default EmptyString (form !! "username"))))
    = Some user /\
    check_password_hash be (u_password user) (default EmptyString (form !! "password"))
    = true /\
    site_session (snd (login be post form s))
    = <[ "username" := u_username user ]> (site_session s).
Proof.
  intros _. unfold login. destruct post; [| by left].
  destruct (truthy (strip (default EmptyString (form !! "username")))) eqn:Hu;
    cbn [negb orb]; [| by left].
  destruct (truthy (default EmptyString (form !! "password"))) eqn:Hp;
    cbn [negb orb]; [| by left].
  apply truthy_iff in Hp.
  walk be; try (by left); right; eexists; repeat split; eauto.
Qed.

(** The sample user logs in with the right password. *)
Lemma login_grants_only_verified_witness :
  site_session (snd (login sample_backend true
                       (<[ "username" := " asha " ]> {[ "password" := "secret" ]})
                       empty_site))
  = <[ "username" := "asha" ]> ∅.
Proof.
  destruct (login_grants_only_verified sample_backend true
              (<[ "username" := " asha " ]> {[ "password" := "secret" ]}) empty_site)
    as [H | (user & _ & _ & _ & _ & H)].
  - by vm_compute.
  - by vm_compute in H.
  - by vm_compute.
Defined.

(** X26.  For a form whose user name and e-mail are ASCII, [register]
    inserts a user only for a POST whose stripped user name, stripped
    e-mail and password are all non-empty, and only after
    its select for that name or e-mail ran without error and found no
    row; what it inserts is the stripped name, the stripped e-mail and
    the hash of the password. *)
Theorem register_inserts_only_checked (be : Backend) (post : bool)
    (form : gmap string string) (s : Site) (u e h : string) :
  ascii_text (default EmptyString (form !! "username")) ->
  ascii_text (default EmptyString (form !! "email")) ->
  InsertUser u e h ∈ db_calls (snd (register be post form s)) ->
  InsertUser u e h ∈ db_calls s \/
  (post = true /\
   u = strip (default EmptyString (form !! "username")) /\ u <> EmptyString /\
   e = strip (default EmptyString (form !! "email")) /\ e <> EmptyString /\
   default EmptyString (form !! "password") <> EmptyString /\
   h = generate_password_hash be (default EmptyString (form !! "password")) /\
   db_fails be (SelectIdByNameOrEmail u e) = None /\
   db_user be (SelectIdByNameOrEmail u e) = None).
Proof.
  intros _ _. unfold register. destruct post; [| by left].
  destruct (truthy (strip (default EmptyString (form !! "username")))) eqn:Hu;
    cbn [negb orb]; [| by left].
  destruct (truthy (default EmptyString (form !! "password"))) eqn:Hp;
    cbn [negb orb]; [| by left].
  destruct (truthy (strip (default EmptyString (form !! "email")))) eqn:He;
    cbn [negb orb]; [| by left].
  apply truthy_iff in Hu, Hp, He.
  walk be; intros Hin; split_calls Hin; try (by left);
    injection Hin as -> -> ->; right; repeat split; done.
Qed.

(** A new user registers with blanks around the name. *)
Lemma register_inserts_only_checked_witness :
  InsertUser "bo" "b@x" "hash:pw"
    ∈ db_calls (snd (register sample_backend true
                       (<[ "username" := " bo " ]>
                          (<[ "email" := "b@x" ]> {[ "password" := "pw" ]}))
                       empty_site)) /\
  "bo" = strip (default EmptyString
                  ((<[ "username" := " bo " ]>
                      (<[ "email" := "b@x" ]> {[ "password" := "pw" ]})
                    : gmap string string) !! "username")).
Proof.
  assert (Hin : InsertUser "bo" "b@x" "hash:pw"
    ∈ db_calls (snd (register sample_backend true
                       (<[ "username" := " bo " ]>
                          (<[ "email" := "b@x" ]> {[ "password" := "pw" ]}))
                       empty_site))).
  { vm_compute. repeat constructor. }
  split; [exact Hin |].
  assert (Hu : ascii_text
                 (default EmptyString
                    ((<[ "username" := " bo " ]>
                        (<[ "email" := "b@x" ]> {[ "password" := "pw" ]})
                      : gmap string string) !! "username"))) by (by vm_compute).
  assert (He : ascii_text
                 (default EmptyString
                    ((<[ "username" := " bo " ]>
                        (<[ "email" := "b@x" ]> {[ "password" := "pw" ]})
                      : gmap string string) !! "email"))) by (by vm_compute).
  destruct (register_inserts_only_checked _ _ _ _ _ _ _ Hu He Hin) as [H | (_ & H & _)].
  - vm_compute in H. by apply elem_of_nil in H.
  - exact H.
Defined.

(** X27.  [change_password] writes a new hash only for the user of the
    session, only when both passwords were given, and only after the
    stored hash of that user accepted the current password; what it
    writes is the hash of the new password. *)
Theorem change_password_updates_only_verified (be : Backend)
    (form : gmap string string) (s : Site) (h u : string) :
  UpdatePassword h u ∈ db_calls (snd (change_password be form s)) ->
  UpdatePassword h u ∈ db_calls s \/
  (site_session s !! "username" = Some u /\
   default EmptyString (form !! "current_password") <> EmptyString /\
   default EmptyString (form !! "new_password") <> EmptyString /\
   h = generate_password_hash be (default EmptyString (form !! "new_password")) /\
   exists user,
     db_user be (SelectPassword u) = Some user /\
     check_password_hash be (u_password user)
       (default EmptyString (form !! "current_password")) = true).
Proof.
  unfold change_password, logged_in.
  destruct (site_session s !! "username") as [name |] eqn:Hs; [| by left].
  destruct (truthy (default EmptyString (form !! "current_password"))) eqn:Hc;
    cbn [negb orb]; [| by left].
  destruct (truthy (default EmptyString (form !! "new_password"))) eqn:Hn;
    cbn [negb orb]; [| by left].
  apply truthy_iff in Hc, Hn.
  walk be; intros Hin; split_calls Hin; try (by left);
    injection Hin as -> ->; right; repeat split; eauto.
Qed.

(** The sample user changes the password. *)
Lemma change_password_updates_only_verified_witness :
  UpdatePassword "hash:new" "asha"
    ∈ db_calls (snd (change_password sample_backend
                       (<[ "current_password" := "secret" ]>
                          {[ "new_password" := "new" ]})
                       {| site_session := {[ "username" := "asha" ]};
                          flashed := []; db_calls := [] |})) /\
  exists user,
    db_user sample_backend (SelectPassword "asha") = Some user /\
    check_password_hash sample_backend (u_password user)
      (default EmptyString
         ((<[ "current_password" := "secret" ]> {[ "new_password" := "new" ]}
           : gmap string string) !! "current_password")) = true.
Proof.
  assert (Hin : UpdatePassword "hash:new" "asha"
    ∈ db_calls (snd (change_password sample_backend
                       (<[ "current_password" := "secret" ]>
                          {[ "new_password" := "new" ]})
                       {| site_session := {[ "username" := "asha" ]};
                          flashed := []; db_calls := [] |}))).
  { vm_compute. repeat constructor. }
  split; [exact Hin |].
  destruct (change_password_updates_only_verified _ _ _ _ _ Hin)
    as [H | (_ & _ & _ & _ & H)].
  - vm_compute in H. by apply elem_of_nil in H.
  - exact H.
Defined.

(** X28.  When [rollback()] and [close()] do not raise, no handler lets a
    failure of the database out: whatever connect, execute and commit
    do, [register], [login] and the protected routes return a response;
    and [register] and the protected routes never change the session. *)
Theorem handlers_contain_db_failures (be : Backend) :
  db_fails be Rollback = None ->
  db_fails be Close = None ->
  (forall post form s,
     exists r s', register be post form s = (Ok r, s') /\
                  site_session s' = site_session s) /\
  (forall post form s, exists r s', login be post form s = (Ok r, s')) /\
  (forall route s,
     exists r s', serve be route s = (Ok r, s') /\ site_session s' = site_session s).
Proof.
  intros Hrb Hcl. split; [| split].
  - intros post form s. unfold register. destruct post; [| by eexists _, _].
    destruct (_ || _); [by eexists _, _ |].
    walk be; try congruence; by eexists _, _.
  - intros post form s. unfold login. destruct post; [| by eexists _, _].
    destruct (_ || _); [by eexists _, _ |].
    walk be; try congruence; by eexists _, _.
  - intros route s. destruct route; cbn [serve];
      unfold dashboard, change_password, history, chatpage, clear_history, logged_in;
      (destruct (site_session s !! "username") as [name |]; [| by eexists _, _]);
      try (destruct (_ || _); [by eexists _, _ |]);
      walk be; try congruence; by eexists _, _.
Qed.

(** The database of the sample cannot be reached: the registration fails
    with a message, not with an exception. *)
Lemma handlers_contain_db_failures_witness :
  exists r s',
    register sample_backend_down true
      (<[ "username" := "bo" ]> (<[ "email" := "b@x" ]> {[ "password" := "pw" ]}))
      empty_site = (Ok r, s') /\
    site_session s' = site_session empty_site.
Proof.
  exact (proj1 (handlers_contain_db_failures sample_backend_down eq_refl eq_refl) _ _ _).
Defined.

End AccountRoutes.
